(** * The lights module of the titan device tree

    A shallow embedding of [liblight/lights.c]: the sysfs writers
    [write_int] and [write_str], the colour codec ([is_lit],
    [rgb_to_brightness], the level and blink pattern of
    [set_light_locked]), the attention/notification arbiter
    ([handle_led_prioritized_locked]), the three [set_light] operations and
    the device factory [open_lights].

    The C code is stateful: it keeps [g_attention], the mutex [g_lock], the
    [already_warned] statics and [errno], and it talks to the kernel through
    [open]/[write]/[close].  Every function that touches this state is written
    in a small state monad [M]; a computation yields no result ([None]) only
    when it would block for ever on the mutex. *)

From Stdlib Require Import ZArith String Ascii List Bool Lia.
From Stdlib Require DecimalString HexadecimalString.
From Stdlib Require Decimal DecimalFacts DecimalPos DecimalZ.
From stdpp Require Import base option gmap strings.

Local Open Scope string_scope.
Local Open Scope list_scope.
Local Open Scope Z_scope.

(** ** C integers *)

(** Conversion to [unsigned int]: reduction modulo 2^32. *)
Definition uint32 (z : Z) : Z := z mod 2 ^ 32.

(** Conversion to [int]: two's complement wrap-around on 32 bits. *)
Definition int32 (z : Z) : Z := (z + 2 ^ 31) mod 2 ^ 32 - 2 ^ 31.

(** ** printf conversions *)

(** The line feed character of the ["\n"] that both writers append. *)
Definition nl : string := String (ascii_of_nat 10) EmptyString.

(** [%d] applied to an [int]. *)
Definition sprintf_d (v : Z) : string :=
  DecimalString.NilZero.string_of_int (Z.to_int (int32 v)).

(** [%x] applied to an [int]: the argument is read as [unsigned int] and
    printed in lower-case hexadecimal with no padding. *)
Definition sprintf_x (v : Z) : string :=
  HexadecimalString.NilZero.string_of_uint (N.to_hex_uint (Z.to_N (uint32 v))).

(** ** Data model *)

(** Modelled from the spec: [struct light_state_t] is declared in the
    platform header [hardware/lights.h], which is not part of the
    repository.  The fields are those of the spec's LightRequest, under the
    names the C code reads them by; [color] is a 32-bit ARGB word, the three
    others are [int]. *)
Record light_state_t : Type := {
  color : Z;
  flashMode : Z;
  flashOnMS : Z;
  flashOffMS : Z
}.

(** The value of a [light_state_t] in static storage before any store. *)
Definition light_state_zero : light_state_t :=
  {| color := 0; flashMode := 0; flashOnMS := 0; flashOffMS := 0 |}.

(** The functions a [set_light] pointer can hold. *)
Inductive set_light_fn : Type :=
| fn_set_light_backlight
| fn_set_light_notifications
| fn_set_light_attention.

(** The functions a [common.close] pointer can hold. *)
Inductive close_fn : Type :=
| fn_close_lights.

(** Modelled from the spec: [struct light_device_t] and the [hw_device_t] it
    starts with are declared in [hardware/lights.h] and
    [hardware/hardware.h], which are not part of the repository.  The fields
    are the ones [open_lights] assigns; a function pointer is [None] when it
    is null. *)
Record light_device_t : Type := {
  common_tag : Z;
  common_version : Z;
  common_module : Z;
  common_close : option close_fn;
  set_light : option set_light_fn
}.

(** What [memset (dev, 0, sizeof *dev)] leaves. *)
Definition light_device_zero : light_device_t :=
  {| common_tag := 0; common_version := 0; common_module := 0;
     common_close := None; set_light := None |}.

(** ** The kernel and the logger *)

(** Outcome of a system call: its non-negative result, or failure (the call
    returns -1) with the error code it leaves in [errno].  Error codes are
    those of [errno.h], small positive [int]s, so that the [-errno] of the
    writers is a plain negation. *)
Inductive sysret : Type :=
| Done (v : N)
| Failed (e : positive).

(** The environment of one operation.  [k_open path] is what
    [open (path, O_RDWR)] answers, [k_write fd data] what [write] answers
    when handed the bytes [data] (a result shorter than [data] is a short
    write), [k_close fd] is [Some e] when [close] fails with code [e],
    and [k_log msg] is [Some e] when the logger behind [ALOGE] leaves a code
    of its own in [errno]. *)
Record kernel : Type := {
  k_open : string -> sysret;
  k_write : Z -> string -> sysret;
  k_close : Z -> option positive;
  k_log : string -> option positive
}.

(** What the module does at its boundary, in order. *)
Inductive event : Type :=
| EvOpen (path : string) (fd : Z)
| EvWrite (fd : Z) (buffer : string) (amt : Z)
| EvClose (fd : Z)
| EvLog (msg : string).

(** ** Program state *)

Record state : Type := {
  errno : Z;
  g_lock : bool;
  g_init : bool;
  g_attention : light_state_t;
  write_int_already_warned : Z;
  write_str_already_warned : Z;
  heap : gmap positive light_device_t;
  trace : list event
}.

(** The state the module is loaded in: [PTHREAD_MUTEX_INITIALIZER],
    [PTHREAD_ONCE_INIT], zeroed statics, nothing allocated. *)
Definition initial_state : state :=
  {| errno := 0; g_lock := false; g_init := false;
     g_attention := light_state_zero;
     write_int_already_warned := 0; write_str_already_warned := 0;
     heap := ∅; trace := [] |}.

Definition set_errno (e : Z) (s : state) : state :=
  {| errno := e; g_lock := g_lock s; g_init := g_init s;
     g_attention := g_attention s;
     write_int_already_warned := write_int_already_warned s;
     write_str_already_warned := write_str_already_warned s;
     heap := heap s; trace := trace s |}.

Definition set_g_lock (b : bool) (s : state) : state :=
  {| errno := errno s; g_lock := b; g_init := g_init s;
     g_attention := g_attention s;
     write_int_already_warned := write_int_already_warned s;
     write_str_already_warned := write_str_already_warned s;
     heap := heap s; trace := trace s |}.

Definition set_g_init (b : bool) (s : state) : state :=
  {| errno := errno s; g_lock := g_lock s; g_init := b;
     g_attention := g_attention s;
     write_int_already_warned := write_int_already_warned s;
     write_str_already_warned := write_str_already_warned s;
     heap := heap s; trace := trace s |}.

Definition set_g_attention (a : light_state_t) (s : state) : state :=
  {| errno := errno s; g_lock := g_lock s; g_init := g_init s;
     g_attention := a;
     write_int_already_warned := write_int_already_warned s;
     write_str_already_warned := write_str_already_warned s;
     heap := heap s; trace := trace s |}.

Definition set_write_int_already_warned (w : Z) (s : state) : state :=
  {| errno := errno s; g_lock := g_lock s; g_init := g_init s;
     g_attention := g_attention s;
     write_int_already_warned := w;
     write_str_already_warned := write_str_already_warned s;
     heap := heap s; trace := trace s |}.

Definition set_write_str_already_warned (w : Z) (s : state) : state :=
  {| errno := errno s; g_lock := g_lock s; g_init := g_init s;
     g_attention := g_attention s;
     write_int_already_warned := write_int_already_warned s;
     write_str_already_warned := w;
     heap := heap s; trace := trace s |}.

Definition set_heap (h : gmap positive light_device_t) (s : state) : state :=
  {| errno := errno s; g_lock := g_lock s; g_init := g_init s;
     g_attention := g_attention s;
     write_int_already_warned := write_int_already_warned s;
     write_str_already_warned := write_str_already_warned s;
     heap := h; trace := trace s |}.

Definition emit (e : event) (s : state) : state :=
  {| errno := errno s; g_lock := g_lock s; g_init := g_init s;
     g_attention := g_attention s;
     write_int_already_warned := write_int_already_warned s;
     write_str_already_warned := write_str_already_warned s;
     heap := heap s; trace := trace s ++ [e] |}.

(** ** The monad *)

Definition M (A : Type) : Type := state -> option (A * state).

#[global] Instance M_ret : MRet M := fun A (a : A) (s : state) => Some (a, s).

#[global] Instance M_bind : MBind M :=
  fun A B (f : A -> M B) (c : M A) (s : state) =>
    match c s with
    | Some (a, s') => f a s'
    | None => None
    end.

Definition gets {A : Type} (f : state -> A) : M A :=
  fun s => Some (f s, s).

Definition modify (f : state -> state) : M unit :=
  fun s => Some (tt, f s).

(** ** pthread *)

(** [pthread_mutex_lock (&g_lock)]: takes the mutex when it is free; on a
    held mutex the caller never proceeds. *)
Definition pthread_mutex_lock : M unit :=
  fun s => if g_lock s then None else Some (tt, set_g_lock true s).

(** [pthread_mutex_unlock (&g_lock)]. *)
Definition pthread_mutex_unlock : M unit :=
  modify (set_g_lock false).

(** [init_globals]: (re)initialises the mutex, which leaves it free. *)
Definition init_globals : M unit :=
  modify (set_g_lock false).

(** [pthread_once (&g_init, init_globals)]. *)
Definition pthread_once_g_init : M unit :=
  once ← gets g_init;
  if (once : bool) then mret tt
  else init_globals;; modify (set_g_init true).

(** ** System calls *)

(** What a system call hands back to C: its result, or -1 after storing the
    error code in [errno]. *)
Definition sys_result (r : sysret) : M Z :=
  match r with
  | Done v => mret (Z.of_N v)
  | Failed e => modify (set_errno (Z.pos e));; mret (-1)
  end.

(** [open (path, O_RDWR)]. *)
Definition sys_open (k : kernel) (path : string) : M Z :=
  fd ← sys_result (k_open k path);
  modify (emit (EvOpen path fd));;
  mret fd.

(** [write (fd, buffer, count)]: the kernel is handed the first [count]
    bytes of [buffer]. *)
Definition sys_write (k : kernel) (fd : Z) (buffer : string) (count : Z)
  : M Z :=
  let data := substring 0 (Z.to_nat count) buffer in
  amt ← sys_result (k_write k fd data);
  modify (emit (EvWrite fd data amt));;
  mret amt.

(** [close (fd)]; the code ignores what it returns. *)
Definition sys_close (k : kernel) (fd : Z) : M unit :=
  modify (emit (EvClose fd));;
  match k_close k fd with
  | None => mret tt
  | Some e => modify (set_errno (Z.pos e))
  end.

(** [ALOGE (...)] with the formatted message. *)
Definition ALOGE (k : kernel) (msg : string) : M unit :=
  modify (emit (EvLog msg));;
  match k_log k msg with
  | None => mret tt
  | Some e => modify (set_errno (Z.pos e))
  end.

(** ** lights.c *)

Definition LED_LIGHT_OFF : Z := 0.
Definition LED_LIGHT_ON : Z := 255.

Definition LCD_FILE : string := "/sys/class/leds/lcd-backlight/brightness".
Definition RGB_CONTROL_FILE : string := "/sys/class/leds/rgb/control".

(** [write_int (path, value)]; [already_warned] is the function's static. *)
Definition write_int (k : kernel) (path : string) (value : Z) : M Z :=
  fd ← sys_open k path;
  if 0 <=? fd then
    let buffer := sprintf_d value +:+ nl in
    let bytes := Z.of_nat (String.length buffer) in
    amt ← sys_write k fd buffer bytes;
    sys_close k fd;;
    e ← gets errno;
    mret (if amt =? -1 then - e else 0)
  else
    warned ← gets write_int_already_warned;
    (if warned =? 0 then
       ALOGE k ("write_int failed to open " +:+ path +:+ nl);;
       modify (set_write_int_already_warned 1)
     else mret tt);;
    e ← gets errno;
    mret (- e).

(** [write_str (path, value)], with a static [already_warned] of its own. *)
Definition write_str (k : kernel) (path : string) (value : string) : M Z :=
  fd ← sys_open k path;
  if 0 <=? fd then
    let buffer := value +:+ nl in
    let bytes := Z.of_nat (String.length buffer) in
    amt ← sys_write k fd buffer bytes;
    sys_close k fd;;
    e ← gets errno;
    mret (if amt =? -1 then - e else 0)
  else
    warned ← gets write_str_already_warned;
    (if warned =? 0 then
       ALOGE k ("write_str failed to open " +:+ path +:+ nl);;
       modify (set_write_str_already_warned 1)
     else mret tt);;
    e ← gets errno;
    mret (- e).

(** [is_lit (state)]: the masked colour, returned as an [int]. *)
Definition is_lit (st : light_state_t) : Z :=
  int32 (Z.land (uint32 (color st)) 0x00ffffff).

(** [rgb_to_brightness (state)], in [int] arithmetic. *)
Definition rgb_to_brightness (st : light_state_t) : Z :=
  let color := int32 (Z.land (uint32 (color st)) 0x00ffffff) in
  Z.shiftr
    (int32 (int32 (int32 (77 * Z.land (Z.shiftr color 16) 0x00ff)
                   + int32 (150 * Z.land (Z.shiftr color 8) 0x00ff))
            + int32 (29 * Z.land color 0x00ff)))
    8.

(** [set_light_backlight (dev, state)]; the brightness is computed before
    the mutex is taken. *)
Definition set_light_backlight (k : kernel) (dev : Z) (st : light_state_t)
  : M Z :=
  let brightness := rgb_to_brightness st in
  pthread_mutex_lock;;
  err ← write_int k LCD_FILE brightness;
  pthread_mutex_unlock;;
  mret err.

(** A C scalar used as a condition. *)
Definition truthy (z : Z) : bool := negb (z =? 0).

(** [strcmp]: zero on equal strings, otherwise the sign of the first
    difference (bytes compared as unsigned). *)
Definition strcmp (a b : string) : Z :=
  match String.compare a b with
  | Eq => 0
  | Lt => -1
  | Gt => 1
  end.

(** Modelled from the spec: the [LIGHT_ID_*] strings are defined in
    [hardware/lights.h], which is not part of the repository; the spec lists
    the three recognized identifiers.  This one is [LIGHT_ID_BACKLIGHT]. *)
Definition LIGHT_ID_BACKLIGHT : string := "backlight".

(** Modelled from the spec: [LIGHT_ID_NOTIFICATIONS] of
    [hardware/lights.h]. *)
Definition LIGHT_ID_NOTIFICATIONS : string := "notifications".

(** Modelled from the spec: [LIGHT_ID_ATTENTION] of [hardware/lights.h]. *)
Definition LIGHT_ID_ATTENTION : string := "attention".

(** Field stores on a device. *)
Definition set_common_tag (v : Z) (d : light_device_t) : light_device_t :=
  {| common_tag := v; common_version := common_version d;
     common_module := common_module d; common_close := common_close d;
     set_light := set_light d |}.

Definition set_common_version (v : Z) (d : light_device_t) : light_device_t :=
  {| common_tag := common_tag d; common_version := v;
     common_module := common_module d; common_close := common_close d;
     set_light := set_light d |}.

Definition set_common_module (v : Z) (d : light_device_t) : light_device_t :=
  {| common_tag := common_tag d; common_version := common_version d;
     common_module := v; common_close := common_close d;
     set_light := set_light d |}.

Definition set_common_close (v : option close_fn) (d : light_device_t)
  : light_device_t :=
  {| common_tag := common_tag d; common_version := common_version d;
     common_module := common_module d; common_close := v;
     set_light := set_light d |}.

Definition set_set_light (v : option set_light_fn) (d : light_device_t)
  : light_device_t :=
  {| common_tag := common_tag d; common_version := common_version d;
     common_module := common_module d; common_close := common_close d;
     set_light := v |}.

(** [malloc (sizeof (struct light_device_t))] followed by
    [memset (dev, 0, sizeof *dev)]: a block that was not allocated before,
    zero-filled.  The allocator is taken never to run out of memory. *)
Definition malloc_memset : M positive :=
  fun s =>
    let p := fresh (dom (heap s)) in
    Some (p, set_heap (<[p := light_device_zero]> (heap s)) s).

(** [dev->field = v] on an allocated block. *)
Definition store (p : positive) (f : light_device_t -> light_device_t)
  : M unit :=
  modify (fun s => set_heap (alter f p (heap s)) s).

(** [free (dev)]. *)
Definition free (dev : Z) : M unit :=
  match dev with
  | Z.pos p => modify (fun s => set_heap (delete p (heap s)) s)
  | _ => mret tt
  end.

(** [close_lights (dev)]. *)
Definition close_lights (dev : Z) : M Z :=
  (if truthy dev then free dev else mret tt);;
  mret 0.

Section Lights.

(** The flash modes of [hardware/lights.h], the tag of
    [hardware/hardware.h] and the [EINVAL] of [errno.h]: constants of
    the platform, whose values the repository does not fix. *)
Variables LIGHT_FLASH_NONE LIGHT_FLASH_TIMED LIGHT_FLASH_HARDWARE : Z.
Variable HARDWARE_DEVICE_TAG : Z.
Variable EINVAL : positive.

(** The [onMS] and [offMS] that the [switch] of [set_light_locked]
    assigns; [LIGHT_FLASH_NONE] shares the [default] branch. *)
Definition flash_times (st : light_state_t) : Z * Z :=
  if (flashMode st =? LIGHT_FLASH_TIMED)
     || (flashMode st =? LIGHT_FLASH_HARDWARE)
  then (flashOnMS st, flashOffMS st)
  else (0, 0).

(** The [brightness_level] of [set_light_locked]. *)
Definition brightness_level (st : light_state_t) : Z :=
  if truthy (is_lit st) then
    int32 (if truthy (Z.land (uint32 (color st)) 0xff000000)
           then Z.shiftr (Z.land (uint32 (color st)) 0xff000000) 24
           else uint32 LED_LIGHT_ON)
  else LED_LIGHT_OFF.

(** The [blink_pattern] of [set_light_locked]:
    [sprintf (blink_pattern, "%x0000 %d %d 1 1", ...)]. *)
Definition blink_pattern (st : light_state_t) : string :=
  let '(onMS, offMS) := flash_times st in
  sprintf_x (brightness_level st) +:+ "0000 " +:+ sprintf_d onMS +:+ " "
    +:+ sprintf_d offMS +:+ " 1 1".

(** [set_light_locked (state)]. *)
Definition set_light_locked (k : kernel) (st : light_state_t) : M Z :=
  write_str k RGB_CONTROL_FILE (blink_pattern st).

(** [handle_led_prioritized_locked (state)]: a lit [g_attention] wins. *)
Definition handle_led_prioritized_locked (k : kernel) (st : light_state_t)
  : M Z :=
  attention ← gets g_attention;
  if truthy (is_lit attention) then set_light_locked k attention
  else set_light_locked k st.

(** [set_light_notifications (dev, state)]. *)
Definition set_light_notifications (k : kernel) (dev : Z)
  (st : light_state_t) : M Z :=
  pthread_mutex_lock;;
  err ← handle_led_prioritized_locked k st;
  pthread_mutex_unlock;;
  mret err.

(** [set_light_attention (dev, state)]: [g_attention = *state] comes
    first. *)
Definition set_light_attention (k : kernel) (dev : Z)
  (st : light_state_t) : M Z :=
  pthread_mutex_lock;;
  modify (set_g_attention st);;
  err ← handle_led_prioritized_locked k st;
  pthread_mutex_unlock;;
  mret err.

(** The function selected by the [strcmp] chain of [open_lights], [None]
    when it falls through to [return -EINVAL]. *)
Definition select_set_light (name : string) : option set_light_fn :=
  if strcmp LIGHT_ID_BACKLIGHT name =? 0 then Some fn_set_light_backlight
  else if strcmp LIGHT_ID_NOTIFICATIONS name =? 0
  then Some fn_set_light_notifications
  else if strcmp LIGHT_ID_ATTENTION name =? 0
  then Some fn_set_light_attention
  else None.

(** [open_lights (module, name, device)].  The second component of the
    result is what was stored in [*device], [None] when nothing was. *)
Definition open_lights (module : Z) (name : string) : M (Z * option Z) :=
  match select_set_light name with
  | None => mret (- Z.pos EINVAL, None)
  | Some fn =>
      pthread_once_g_init;;
      dev ← malloc_memset;
      store dev (set_common_tag HARDWARE_DEVICE_TAG);;
      store dev (set_common_version 0);;
      store dev (set_common_module module);;
      store dev (set_common_close (Some fn_close_lights));;
      store dev (set_set_light (Some fn));;
      mret (0, Some (Z.pos dev))
  end.

(** A call through the [set_light] pointer of a device. *)
Definition call_set_light (fn : set_light_fn) (k : kernel) (dev : Z)
  (st : light_state_t) : M Z :=
  match fn with
  | fn_set_light_backlight => set_light_backlight k dev st
  | fn_set_light_notifications => set_light_notifications k dev st
  | fn_set_light_attention => set_light_attention k dev st
  end.

(** ** Vocabulary of the statements *)

(** Byte [i] of a word, byte 0 being the least significant: for a colour,
    bytes 0, 1 and 2 are the B, G and R channels and byte 3 is the top
    (alpha) byte. *)
Definition byte_of (c : Z) (i : Z) : Z := (c / 2 ^ (8 * i)) mod 2 ^ 8.

(** The lower-case hexadecimal digit of a value below 16. *)
Definition hex_digit (d : Z) : ascii :=
  nth (Z.to_nat d) (list_ascii_of_string "0123456789abcdef") "?"%char.

(** A level written with one hexadecimal digit. *)
Definition hex1 (level : Z) : string :=
  String (hex_digit level) EmptyString.

(** A level written with two hexadecimal digits, the first one possibly 0. *)
Definition hex2 (level : Z) : string :=
  String (hex_digit (level / 16))
    (String (hex_digit (level mod 16)) EmptyString).

(** The pattern in the words of the spec: the level as two hexadecimal
    digits, then [0000], the two durations and the two ramp parameters. *)
Definition spec_toBlinkPattern (level onMs offMs : Z) : string :=
  hex2 level +:+ "0000 " +:+ sprintf_d onMs +:+ " " +:+ sprintf_d offMs
    +:+ " 1 1".

(** The three system calls of a writer whose [open] answered [fd], as they
    appear in the trace. *)
Definition written (path : string) (fd : Z) (buffer : string) (amt : Z)
  : list event :=
  [EvOpen path fd; EvWrite fd buffer amt; EvClose fd].

(** [open_lights] succeeds: it returns 0, stores in [*device] the address of
    a block that was free before, which now holds a device bound to [fn],
    and changes nothing else but the once flag and the mutex it
    initialises. *)
Definition opens (module : Z) (name : string) (fn : set_light_fn)
  (s : state) : Prop :=
  exists (p : positive) (s' : state),
    open_lights module name s = Some ((0, Some (Z.pos p)), s')
    /\ heap s !! p = None
    /\ heap s' =
         <[p := {| common_tag := HARDWARE_DEVICE_TAG; common_version := 0;
                   common_module := module;
                   common_close := Some fn_close_lights;
                   set_light := Some fn |}]> (heap s)
    /\ g_init s' = true
    /\ g_attention s' = g_attention s
    /\ trace s' = trace s.

(** Concrete requests and kernels on which the statements are exercised.
    Pure red, no flashing: *)
Definition request_red : light_state_t :=
  {| color := 0x00FF0000; flashMode := 0; flashOnMS := 0; flashOffMS := 0 |}.

(** An alpha byte and no colour. *)
Definition request_alpha_only : light_state_t :=
  {| color := 0x80000000; flashMode := 0; flashOnMS := 0; flashOffMS := 0 |}.

(** All zero: the LED off. *)
Definition request_off : light_state_t :=
  {| color := 0; flashMode := 0; flashOnMS := 0; flashOffMS := 0 |}.

(** Green at level 5, flashing 500 ms on and 2000 ms off. *)
Definition request_dim_blink : light_state_t :=
  {| color := 0x0500FF00; flashMode := 1; flashOnMS := 500;
     flashOffMS := 2000 |}.

(** The module as loaded, after an attention call has stored pure red. *)
Definition state_attention_red : state :=
  set_g_attention request_red initial_state.

(** Every call succeeds and [write] takes the whole buffer. *)
Definition kernel_ok : kernel :=
  {| k_open := fun _ => Done 3;
     k_write := fun _ buffer => Done (N.of_nat (String.length buffer));
     k_close := fun _ => None;
     k_log := fun _ => None |}.

(** [write] takes one byte only. *)
Definition kernel_short : kernel :=
  {| k_open := fun _ => Done 3;
     k_write := fun _ _ => Done 1;
     k_close := fun _ => None;
     k_log := fun _ => None |}.

(** [open] fails with code 2. *)
Definition kernel_no_file : kernel :=
  {| k_open := fun _ => Failed 2;
     k_write := fun _ buffer => Done (N.of_nat (String.length buffer));
     k_close := fun _ => None;
     k_log := fun _ => None |}.

(** [write] fails with code 5. *)
Definition kernel_write_error : kernel :=
  {| k_open := fun _ => Done 3;
     k_write := fun _ _ => Failed 5;
     k_close := fun _ => None;
     k_log := fun _ => None |}.

(** The [int] a system call returns. *)
Definition sys_int (r : sysret) : Z :=
  match r with
  | Done v => Z.of_N v
  | Failed _ => -1
  end.

(** What a writer leaves alone: everything but [errno], its own
    [already_warned] flag and the trace. *)
Definition io_frame (s s' : state) : Prop :=
  g_attention s' = g_attention s /\ g_lock s' = g_lock s
  /\ g_init s' = g_init s /\ heap s' = heap s.

(** A state with another request stored in [g_attention], paired with the
    same result. *)
Definition with_attention (a : light_state_t) (out : Z * state) : Z * state :=
  (fst out, set_g_attention a (snd out)).

(** The result of a critical section once the mutex is released. *)
Definition unlocked (out : Z * state) : Z * state :=
  (fst out, set_g_lock false (snd out)).

(** Two states that differ at most in the request held by [g_attention]. *)
Definition agree_but_attention (s1 s2 : state) : Prop :=
  set_g_attention light_state_zero s1 = set_g_attention light_state_zero s2.

(** An operation with outcome [out], entered in state [s], drives the
    indicator LED from the request [st]: it behaves as [set_light_locked]
    on [st] between taking and releasing the mutex, and when the control
    file opens, its one write carries the blink pattern of [st] followed by
    a line feed. *)
Definition drives_led_from (k : kernel) (st : light_state_t) (s : state)
  (out : option (Z * state)) : Prop :=
  out = (unlocked <$> set_light_locked k st (set_g_lock true s))
  /\ forall fd : N,
       k_open k RGB_CONTROL_FILE = Done fd ->
       exists r s',
         out = Some (r, s')
         /\ trace s' =
              trace s ++ written RGB_CONTROL_FILE (Z.of_N fd)
                           (blink_pattern st +:+ nl)
                           (sys_int (k_write k (Z.of_N fd)
                                       (blink_pattern st +:+ nl))).

(** The contract of a writer entered with its [already_warned] flag at
    [warned]: it returns, with 0 when [open] and [write] both succeed,
    however many bytes [write] took; otherwise with minus the error code
    found in [errno] on return, a negative number.  That code is the one of
    the failed call unless [close] (after a failed [write]) or the logger
    (at the first failed [open]) failed in turn and left its own. *)
Definition writer_result (k : kernel) (path buffer : string) (warned : Z)
  (msg : string) (out : option (Z * state)) : Prop :=
  exists r s',
    out = Some (r, s')
    /\ match k_open k path with
       | Done fd =>
           match k_write k (Z.of_N fd) buffer with
           | Done amt => r = 0
           | Failed e =>
               r = - errno s' /\ r < 0
               /\ (k_close k (Z.of_N fd) = None -> r = - Z.pos e)
           end
       | Failed e =>
           r = - errno s' /\ r < 0
           /\ (warned <> 0 \/ k_log k msg = None -> r = - Z.pos e)
       end.

(** The device [open_lights] leaves in the heap for a handle of [module]
    bound to [fn]. *)
Definition bound_device (module : Z) (fn : set_light_fn) : light_device_t :=
  {| common_tag := HARDWARE_DEVICE_TAG; common_version := 0;
     common_module := module; common_close := Some fn_close_lights;
     set_light := Some fn |}.

(** The number a decimal text denotes, as the driver reads a [%d] field. *)
Definition dec_value (t : string) : option Z :=
  Z.of_int <$> DecimalString.NilZero.int_of_string t.

(** The number a hexadecimal text denotes, as the driver reads the colour
    field. *)
Definition hex_value (t : string) : option Z :=
  (fun u => Z.of_N (N.of_hex_uint u))
    <$> HexadecimalString.NilZero.uint_of_string t.

(** A decimal numeral that is not empty and does not start with 0. *)
Definition leading_digit (d : Decimal.uint) : Prop :=
  match d with
  | Decimal.Nil | Decimal.D0 _ => False
  | _ => True
  end.

(** The events a writer appends to the trace in the environment [k]: the
    three system calls when [open] succeeds; the failed [open], followed by
    the warning [msg] when [logged] holds, when it fails. *)
Definition writer_events (k : kernel) (path buffer msg : string)
  (logged : bool) : list event :=
  match k_open k path with
  | Done fd =>
      written path (Z.of_N fd) buffer
        (sys_int (k_write k (Z.of_N fd) buffer))
  | Failed _ =>
      EvOpen path (-1) :: (if logged then [EvLog msg] else [])
  end.

(** A call made through the [set_light] pointer of a handle: the function
    the handle is bound to, the environment the call runs in, and the
    request. *)
Record call : Type := {
  call_fn : set_light_fn;
  call_kernel : kernel;
  call_request : light_state_t
}.

(** A client making the calls [cs] one after the other and collecting
    their results; the handle argument, which no operation uses, is null. *)
Fixpoint run_calls (cs : list call) : M (list Z) :=
  match cs with
  | [] => mret []
  | c :: cs' =>
      r ← call_set_light (call_fn c) (call_kernel c) 0 (call_request c);
      rs ← run_calls cs';
      mret (r :: rs)
  end.

(** What the module remembers from one call to the next: the request in
    [g_attention] and the [already_warned] flags of the two writers. *)
Record view : Type := {
  v_attention : light_state_t;
  v_warned_int : Z;
  v_warned_str : Z
}.

Definition view_of (s : state) : view :=
  {| v_attention := g_attention s;
     v_warned_int := write_int_already_warned s;
     v_warned_str := write_str_already_warned s |}.

(** The [already_warned] flag of a writer after a call on [path]. *)
Definition warned_after (k : kernel) (path : string) (warned : Z) : Z :=
  match k_open k path with
  | Done _ => warned
  | Failed _ => if warned =? 0 then 1 else warned
  end.

(** The request a notification call resolves to. *)
Definition resolved (attention st : light_state_t) : light_state_t :=
  if truthy (is_lit attention) then attention else st.

(** The memory of the module after the call [c]. *)
Definition view_step (v : view) (c : call) : view :=
  match call_fn c with
  | fn_set_light_backlight =>
      {| v_attention := v_attention v;
         v_warned_int := warned_after (call_kernel c) LCD_FILE (v_warned_int v);
         v_warned_str := v_warned_str v |}
  | fn_set_light_notifications =>
      {| v_attention := v_attention v;
         v_warned_int := v_warned_int v;
         v_warned_str :=
           warned_after (call_kernel c) RGB_CONTROL_FILE (v_warned_str v) |}
  | fn_set_light_attention =>
      {| v_attention := call_request c;
         v_warned_int := v_warned_int v;
         v_warned_str :=
           warned_after (call_kernel c) RGB_CONTROL_FILE (v_warned_str v) |}
  end.

(** The events of the call [c] made when the module remembers [v]. *)
Definition call_events (v : view) (c : call) : list event :=
  match call_fn c with
  | fn_set_light_backlight =>
      writer_events (call_kernel c) LCD_FILE
        (sprintf_d (rgb_to_brightness (call_request c)) +:+ nl)
        ("write_int failed to open " +:+ LCD_FILE +:+ nl)
        (v_warned_int v =? 0)
  | fn_set_light_notifications =>
      writer_events (call_kernel c) RGB_CONTROL_FILE
        (blink_pattern (resolved (v_attention v) (call_request c)) +:+ nl)
        ("write_str failed to open " +:+ RGB_CONTROL_FILE +:+ nl)
        (v_warned_str v =? 0)
  | fn_set_light_attention =>
      writer_events (call_kernel c) RGB_CONTROL_FILE
        (blink_pattern (call_request c) +:+ nl)
        ("write_str failed to open " +:+ RGB_CONTROL_FILE +:+ nl)
        (v_warned_str v =? 0)
  end.

(** The memory of the module after the calls [cs]. *)
Fixpoint view_after (v : view) (cs : list call) : view :=
  match cs with
  | [] => v
  | c :: cs' => view_after (view_step v c) cs'
  end.

(** The events of the calls [cs], in order. *)
Fixpoint expected_trace (v : view) (cs : list call) : list event :=
  match cs with
  | [] => []
  | c :: cs' => call_events v c ++ expected_trace (view_step v c) cs'
  end.

Definition is_warning (e : event) : bool :=
  match e with
  | EvLog _ => true
  | _ => false
  end.

(** The writers that have not warned yet. *)
Definition pending_warnings (v : view) : nat :=
  Nat.add (if v_warned_int v =? 0 then 1%nat else 0%nat)
    (if v_warned_str v =? 0 then 1%nat else 0%nat).

(** The call [c] with its request replaced by [st]. *)
Definition with_request (st : light_state_t) (c : call) : call :=
  {| call_fn := call_fn c; call_kernel := call_kernel c;
     call_request := st |}.

(** Concrete handles and calls on which the statements are exercised: a
    device of module 7 under the tag 0x48574454, the states after one and
    after two opens, a mixed sequence of calls and a sequence of
    notification calls. *)
Definition demo_device (fn : set_light_fn) : light_device_t :=
  {| common_tag := 0x48574454; common_version := 0; common_module := 7;
     common_close := Some fn_close_lights; set_light := Some fn |}.

Definition state_one_handle : state :=
  set_heap {[1%positive := demo_device fn_set_light_attention]}
    (set_g_init true initial_state).

Definition state_two_handles : state :=
  set_heap
    (<[2%positive := demo_device fn_set_light_backlight]>
       {[1%positive := demo_device fn_set_light_attention]})
    (set_g_init true initial_state).

(** Mid grey with the alpha byte set, as a backlight request carries it. *)
Definition request_grey : light_state_t :=
  {| color := 0xFF808080; flashMode := 0; flashOnMS := 0; flashOffMS := 0 |}.

Definition demo_calls : list call :=
  [ {| call_fn := fn_set_light_attention; call_kernel := kernel_ok;
       call_request := request_red |};
    {| call_fn := fn_set_light_notifications; call_kernel := kernel_no_file;
       call_request := request_dim_blink |};
    {| call_fn := fn_set_light_backlight; call_kernel := kernel_no_file;
       call_request := request_red |};
    {| call_fn := fn_set_light_notifications; call_kernel := kernel_no_file;
       call_request := request_off |};
    {| call_fn := fn_set_light_attention; call_kernel := kernel_write_error;
       call_request := request_off |} ].

Definition demo_notifications : list call :=
  [ {| call_fn := fn_set_light_notifications; call_kernel := kernel_ok;
       call_request := request_dim_blink |};
    {| call_fn := fn_set_light_notifications; call_kernel := kernel_short;
       call_request := request_off |} ].

Ltac unfold_M :=
  unfold mbind, M_bind, mret, M_ret, gets, modify in *.

Ltac unfold_io :=
  unfold sys_open, sys_close, ALOGE, sys_result in *; unfold_M.

(** Rewrites the [write] of a writer with the equation [whole]. *)
Ltac step_write whole :=
  rewrite whole; unfold sys_result; unfold_M; simpl.

(** ** Arithmetic of the codec *)

Lemma int32_id (z : Z) : - 2 ^ 31 <= z < 2 ^ 31 -> int32 z = z.
Proof.
  intros Hz. unfold int32. rewrite Z.mod_small; lia.
Qed.

Lemma mod_mul_div (c a b : Z) :
  0 < a -> 0 < b -> (c mod (a * b)) / a = (c / a) mod b.
Proof.
  intros Ha Hb.
  rewrite Z.rem_mul_r by lia.
  rewrite (Z.mul_comm a), Z.div_add by lia.
  rewrite (Z.div_small (c mod a)) by (apply Z.mod_pos_bound; lia).
  reflexivity.
Qed.

Lemma mod_mod_mul (c a b : Z) :
  0 < a -> 0 < b -> (c mod (a * b)) mod a = c mod a.
Proof.
  intros Ha Hb.
  rewrite Z.rem_mul_r by lia.
  rewrite (Z.mul_comm a), Z.mod_add by lia.
  apply Z.mod_mod. lia.
Qed.

Lemma land_uint32_low24 (c : Z) :
  Z.land (uint32 c) 0x00ffffff = c mod 2 ^ 24.
Proof.
  change 0x00ffffff with (Z.ones 24).
  rewrite Z.land_ones by lia. unfold uint32.
  change (2 ^ 32) with (2 ^ 24 * 2 ^ 8).
  apply mod_mod_mul; lia.
Qed.

Lemma low24_range (c : Z) : 0 <= c mod 2 ^ 24 < 2 ^ 24.
Proof. apply Z.mod_pos_bound. lia. Qed.

Lemma is_lit_low24 (st : light_state_t) : is_lit st = color st mod 2 ^ 24.
Proof.
  unfold is_lit. rewrite land_uint32_low24.
  apply int32_id. pose proof (low24_range (color st)). lia.
Qed.

Lemma byte_of_range (c i : Z) : 0 <= byte_of c i <= 255.
Proof.
  unfold byte_of.
  pose proof (Z.mod_pos_bound (c / 2 ^ (8 * i)) (2 ^ 8)). lia.
Qed.

Lemma low24_byte (c n : Z) :
  n = 0 \/ n = 1 \/ n = 2 ->
  Z.land (Z.shiftr (c mod 2 ^ 24) (8 * n)) 0x00ff = byte_of c n.
Proof.
  intros Hn. change 0x00ff with (Z.ones 8).
  rewrite Z.land_ones, Z.shiftr_div_pow2 by lia.
  unfold byte_of.
  destruct Hn as [-> | [-> | ->]]; simpl (8 * _).
  - change (2 ^ 0) with 1. rewrite !Z.div_1_r.
    change (2 ^ 24) with (2 ^ 8 * 2 ^ 16). apply mod_mod_mul; lia.
  - change (2 ^ 24) with (2 ^ 8 * 2 ^ 16).
    rewrite mod_mul_div by lia.
    change (2 ^ 16) with (2 ^ 8 * 2 ^ 8). apply mod_mod_mul; lia.
  - change (2 ^ 24) with (2 ^ 16 * 2 ^ 8).
    rewrite mod_mul_div by lia.
    apply Z.mod_mod. lia.
Qed.

Lemma rgb_to_brightness_luma (st : light_state_t) :
  rgb_to_brightness st =
  (77 * byte_of (color st) 2 + 150 * byte_of (color st) 1
   + 29 * byte_of (color st) 0) / 2 ^ 8.
Proof.
  unfold rgb_to_brightness.
  rewrite land_uint32_low24.
  rewrite (int32_id (color st mod 2 ^ 24))
    by (pose proof (low24_range (color st)); lia).
  change 16 with (8 * 2). change (Z.shiftr (color st mod 2 ^ 24) 8)
    with (Z.shiftr (color st mod 2 ^ 24) (8 * 1)).
  replace (Z.land (color st mod 2 ^ 24) 0x00ff)
    with (Z.land (Z.shiftr (color st mod 2 ^ 24) (8 * 0)) 0x00ff)
    by (now rewrite Z.shiftr_0_r).
  rewrite !low24_byte by lia.
  pose proof (byte_of_range (color st) 0).
  pose proof (byte_of_range (color st) 1).
  pose proof (byte_of_range (color st) 2).
  rewrite (int32_id (77 * _)), (int32_id (150 * _)), (int32_id (29 * _))
    by lia.
  rewrite (int32_id (77 * _ + _)) by lia.
  rewrite int32_id by lia.
  apply Z.shiftr_div_pow2. lia.
Qed.

Lemma rgb_to_brightness_range (st : light_state_t) :
  0 <= rgb_to_brightness st <= 255.
Proof.
  rewrite rgb_to_brightness_luma.
  pose proof (byte_of_range (color st) 0).
  pose proof (byte_of_range (color st) 1).
  pose proof (byte_of_range (color st) 2).
  split.
  - apply Z.div_pos; lia.
  - apply Z.div_le_upper_bound; lia.
Qed.

Lemma land_uint32_top (c : Z) :
  Z.land (uint32 c) 0xff000000 = Z.shiftl (byte_of c 3) 24.
Proof.
  unfold uint32, byte_of. change (8 * 3) with 24.
  rewrite <- (Z.land_ones c 32), <- (Z.land_ones (c / 2 ^ 24) 8),
    <- Z.shiftr_div_pow2 by lia.
  change 0xff000000 with (Z.shiftl (Z.ones 8) 24).
  apply Z.bits_inj'. intros n Hn.
  rewrite !Z.land_spec, !Z.shiftl_spec, Z.land_spec by lia.
  destruct (Z.ltb_spec n 24) as [Hlt | Hge].
  - rewrite !(Z.testbit_neg_r _ (n - 24)) by lia.
    now rewrite andb_false_r.
  - rewrite Z.shiftr_spec by lia.
    replace (n - 24 + 24) with n by lia.
    rewrite !Z.testbit_ones by lia.
    destruct (Z.testbit c n); simpl; [| reflexivity].
    destruct (Z.ltb_spec (n - 24) 8), (Z.ltb_spec n 32),
      (Z.leb_spec 0 n), (Z.leb_spec 0 (n - 24)); simpl; try reflexivity; lia.
Qed.

Lemma top_byte_shift (c : Z) :
  Z.shiftr (Z.land (uint32 c) 0xff000000) 24 = byte_of c 3.
Proof.
  rewrite land_uint32_top, Z.shiftr_shiftl_l by lia.
  apply Z.shiftl_0_r.
Qed.

Lemma top_byte_truthy (c : Z) :
  truthy (Z.land (uint32 c) 0xff000000) = negb (byte_of c 3 =? 0).
Proof.
  unfold truthy. rewrite land_uint32_top, Z.shiftl_mul_pow2 by lia.
  f_equal.
  destruct (Z.eqb_spec (byte_of c 3) 0) as [-> | Hne]; [reflexivity |].
  apply Z.eqb_neq. lia.
Qed.

(** [%x] of a level: one digit below 16, two from 16 to 255. *)
Lemma sprintf_x_level (level : Z) :
  0 <= level <= 255 ->
  sprintf_x level = if level <? 16 then hex1 level else hex2 level.
Proof.
  intros Hl.
  assert (Hall : forallb
            (fun n => let l := Z.of_nat n in
               String.eqb (sprintf_x l)
                 (if l <? 16 then hex1 l else hex2 l))
            (seq 0 256) = true) by (vm_compute; reflexivity).
  rewrite forallb_forall in Hall.
  specialize (Hall (Z.to_nat level)).
  cbv zeta in Hall. rewrite Z2Nat.id in Hall by lia.
  apply String.eqb_eq, Hall, in_seq. lia.
Qed.

(** ** The writers *)

(** [sprintf] returns the length of what it wrote, so that [write] is
    handed the whole buffer. *)
Lemma substring_whole (b : string) : substring 0 (String.length b) b = b.
Proof.
  induction b as [| c b IH]; simpl; [reflexivity | now rewrite IH].
Qed.

Lemma sys_write_whole (k : kernel) (fd : Z) (buffer : string) :
  sys_write k fd buffer (Z.of_nat (String.length buffer)) =
  (amt ← sys_result (k_write k fd buffer);
   modify (emit (EvWrite fd buffer amt));;
   mret amt).
Proof.
  unfold sys_write. now rewrite Nat2Z.id, substring_whole.
Qed.

Lemma write_str_run (k : kernel) (path value : string) (s : state) :
  exists r s', write_str k path value s = Some (r, s') /\ io_frame s s'.
Proof.
  unfold write_str, io_frame. unfold_io.
  destruct (k_open k path) as [[| fd] | e]; simpl.
  1, 2: step_write sys_write_whole;
    destruct (k_write k _ _) as [[| amt] | e'], (k_close k _); simpl;
    eauto 10.
  destruct (write_str_already_warned s =? 0); simpl;
    [destruct (k_log k _) |]; simpl; eauto 10.
Qed.

Lemma write_int_run (k : kernel) (path : string) (value : Z) (s : state) :
  exists r s', write_int k path value s = Some (r, s') /\ io_frame s s'.
Proof.
  unfold write_int, io_frame. unfold_io.
  destruct (k_open k path) as [[| fd] | e]; simpl.
  1, 2: step_write sys_write_whole;
    destruct (k_write k _ _) as [[| amt] | e'], (k_close k _); simpl;
    eauto 10.
  destruct (write_int_already_warned s =? 0); simpl;
    [destruct (k_log k _) |]; simpl; eauto 10.
Qed.

(** After a successful [open], a writer hands [write] the value followed by
    a line feed, closes the descriptor, and returns 0 unless [write] itself
    returned -1. *)
Lemma write_str_opened (k : kernel) (path value : string) (s : state)
  (fd : N) :
  k_open k path = Done fd ->
  exists r s',
    write_str k path value s = Some (r, s')
    /\ r = match k_write k (Z.of_N fd) (value +:+ nl) with
           | Done _ => 0
           | Failed _ => - errno s'
           end
    /\ trace s' =
         trace s ++ written path (Z.of_N fd) (value +:+ nl)
                      (sys_int (k_write k (Z.of_N fd) (value +:+ nl))).
Proof.
  intros Hopen. unfold write_str, written. unfold_io. rewrite Hopen.
  destruct fd as [| fd]; simpl; step_write sys_write_whole;
    destruct (k_write k _ _) as [[| amt] | e'], (k_close k _); simpl;
    do 2 eexists; (split; [reflexivity |]); simpl;
    (split; [reflexivity |]); rewrite <- ?app_assoc; reflexivity.
Qed.

Lemma write_int_opened (k : kernel) (path : string) (value : Z) (s : state)
  (fd : N) :
  k_open k path = Done fd ->
  exists r s',
    write_int k path value s = Some (r, s')
    /\ r = match k_write k (Z.of_N fd) (sprintf_d value +:+ nl) with
           | Done _ => 0
           | Failed _ => - errno s'
           end
    /\ trace s' =
         trace s ++ written path (Z.of_N fd) (sprintf_d value +:+ nl)
                      (sys_int (k_write k (Z.of_N fd) (sprintf_d value +:+ nl))).
Proof.
  intros Hopen. unfold write_int, written. unfold_io. rewrite Hopen.
  destruct fd as [| fd]; simpl; step_write sys_write_whole;
    destruct (k_write k _ _) as [[| amt] | e'], (k_close k _); simpl;
    do 2 eexists; (split; [reflexivity |]); simpl;
    (split; [reflexivity |]); rewrite <- ?app_assoc; reflexivity.
Qed.

(** A writer neither reads nor writes [g_attention]. *)
Lemma write_str_attention (k : kernel) (path value : string)
  (a : light_state_t) (s : state) :
  write_str k path value (set_g_attention a s) =
  with_attention a <$> write_str k path value s.
Proof.
  unfold write_str, with_attention. unfold_io.
  destruct (k_open k path) as [[| fd] | e]; simpl.
  1, 2: step_write sys_write_whole;
    destruct (k_write k _ _) as [[| amt] | e'], (k_close k _);
    reflexivity.
  destruct (write_str_already_warned s =? 0); simpl;
    [destruct (k_log k _) |]; reflexivity.
Qed.

Lemma write_int_attention (k : kernel) (path : string) (value : Z)
  (a : light_state_t) (s : state) :
  write_int k path value (set_g_attention a s) =
  with_attention a <$> write_int k path value s.
Proof.
  unfold write_int, with_attention. unfold_io.
  destruct (k_open k path) as [[| fd] | e]; simpl.
  1, 2: step_write sys_write_whole;
    destruct (k_write k _ _) as [[| amt] | e'], (k_close k _);
    reflexivity.
  destruct (write_int_already_warned s =? 0); simpl;
    [destruct (k_log k _) |]; reflexivity.
Qed.

(** ** The codec *)

Lemma land_low24 (c : Z) : Z.land c 0x00FFFFFF = c mod 2 ^ 24.
Proof. change 0x00FFFFFF with (Z.ones 24). apply Z.land_ones. lia. Qed.

(** A request is not lit exactly when the low 24 bits of its colour are
    zero. *)
Lemma unlit_iff (st : light_state_t) :
  truthy (is_lit st) = false <-> Z.land (color st) 0x00FFFFFF = 0.
Proof.
  unfold truthy. rewrite is_lit_low24, land_low24, negb_false_iff.
  apply Z.eqb_eq.
Qed.

Lemma lit_iff (st : light_state_t) :
  truthy (is_lit st) = true <-> Z.land (color st) 0x00FFFFFF <> 0.
Proof.
  unfold truthy. rewrite is_lit_low24, land_low24, negb_true_iff.
  apply Z.eqb_neq.
Qed.

Lemma brightness_level_cases (st : light_state_t) :
  brightness_level st =
  if truthy (is_lit st) then
    if byte_of (color st) 3 =? 0 then 255 else byte_of (color st) 3
  else 0.
Proof.
  unfold brightness_level, LED_LIGHT_OFF, LED_LIGHT_ON.
  destruct (truthy (is_lit st)); [| reflexivity].
  rewrite top_byte_truthy, top_byte_shift.
  pose proof (byte_of_range (color st) 3).
  destruct (byte_of (color st) 3 =? 0); simpl.
  - reflexivity.
  - apply int32_id. lia.
Qed.

Lemma brightness_level_range (st : light_state_t) :
  0 <= brightness_level st <= 255.
Proof.
  rewrite brightness_level_cases.
  pose proof (byte_of_range (color st) 3).
  destruct (truthy (is_lit st)), (byte_of (color st) 3 =? 0); lia.
Qed.

Lemma flash_times_flashing (st : light_state_t) :
  flashMode st = LIGHT_FLASH_TIMED \/ flashMode st = LIGHT_FLASH_HARDWARE ->
  flash_times st = (flashOnMS st, flashOffMS st).
Proof.
  unfold flash_times. intros [-> | ->]; rewrite Z.eqb_refl.
  - reflexivity.
  - now rewrite orb_true_r.
Qed.

Lemma flash_times_other (st : light_state_t) :
  flashMode st <> LIGHT_FLASH_TIMED ->
  flashMode st <> LIGHT_FLASH_HARDWARE ->
  flash_times st = (0, 0).
Proof.
  unfold flash_times. intros Ht Hh.
  apply Z.eqb_neq in Ht, Hh. now rewrite Ht, Hh.
Qed.

(** ** The operations as critical sections *)

Lemma set_light_notifications_run (k : kernel) (dev : Z)
  (st : light_state_t) (s : state) :
  g_lock s = false ->
  set_light_notifications k dev st s =
  unlocked <$>
    set_light_locked k
      (if truthy (is_lit (g_attention s)) then g_attention s else st)
      (set_g_lock true s).
Proof.
  intros Hfree.
  unfold set_light_notifications, handle_led_prioritized_locked,
    pthread_mutex_lock, pthread_mutex_unlock, unlocked.
  unfold_M. rewrite Hfree. simpl.
  destruct (truthy (is_lit (g_attention s)));
    destruct (set_light_locked k _ _) as [[r s1] |]; reflexivity.
Qed.

Lemma set_light_attention_run (k : kernel) (dev : Z)
  (st : light_state_t) (s : state) :
  g_lock s = false ->
  set_light_attention k dev st s =
  unlocked <$>
    set_light_locked k st (set_g_attention st (set_g_lock true s)).
Proof.
  intros Hfree.
  unfold set_light_attention, handle_led_prioritized_locked,
    pthread_mutex_lock, pthread_mutex_unlock, unlocked.
  unfold_M. rewrite Hfree. simpl.
  destruct (truthy (is_lit st));
    destruct (set_light_locked k _ _) as [[r s1] |]; reflexivity.
Qed.

Lemma set_light_backlight_run (k : kernel) (dev : Z)
  (st : light_state_t) (s : state) :
  g_lock s = false ->
  set_light_backlight k dev st s =
  unlocked <$>
    write_int k LCD_FILE (rgb_to_brightness st) (set_g_lock true s).
Proof.
  intros Hfree.
  unfold set_light_backlight, pthread_mutex_lock, pthread_mutex_unlock,
    unlocked.
  unfold_M. rewrite Hfree. simpl.
  destruct (write_int k _ _ _) as [[r s1] |]; reflexivity.
Qed.

(** What [set_light_locked] does when [open] succeeds: one write of the
    pattern and a line feed to the control file of the LED. *)
Lemma set_light_locked_opened (k : kernel) (st : light_state_t) (s : state)
  (fd : N) :
  k_open k RGB_CONTROL_FILE = Done fd ->
  exists r s',
    set_light_locked k st s = Some (r, s')
    /\ io_frame s s'
    /\ trace s' =
         trace s ++ written RGB_CONTROL_FILE (Z.of_N fd)
                      (blink_pattern st +:+ nl)
                      (sys_int (k_write k (Z.of_N fd) (blink_pattern st +:+ nl))).
Proof.
  intros Hopen. unfold set_light_locked.
  destruct (write_str_opened k RGB_CONTROL_FILE (blink_pattern st) s fd Hopen)
    as (r & s' & Hrun & _ & Htrace).
  destruct (write_str_run k RGB_CONTROL_FILE (blink_pattern st) s)
    as (r0 & s0 & Hrun0 & Hframe).
  rewrite Hrun in Hrun0. injection Hrun0 as <- <-.
  eauto.
Qed.

Lemma critical_section_drives (k : kernel) (st : light_state_t) (s : state) :
  drives_led_from k st s
    (unlocked <$> set_light_locked k st (set_g_lock true s)).
Proof.
  split; [reflexivity |]. intros fd Hopen.
  destruct (set_light_locked_opened k st (set_g_lock true s) fd Hopen)
    as (r & s' & Hrun & _ & Htrace).
  rewrite Hrun. simpl. exists r, (set_g_lock false s').
  split; [reflexivity |]. exact Htrace.
Qed.

(** From a free mutex every operation returns, with the mutex free again. *)
Lemma set_light_notifications_post (k : kernel) (dev : Z)
  (st : light_state_t) (s : state) :
  g_lock s = false ->
  exists r s',
    set_light_notifications k dev st s = Some (r, s')
    /\ g_lock s' = false /\ g_attention s' = g_attention s
    /\ g_init s' = g_init s /\ heap s' = heap s.
Proof.
  intros Hfree. rewrite set_light_notifications_run by assumption.
  unfold set_light_locked.
  destruct (write_str_run k RGB_CONTROL_FILE
              (blink_pattern
                 (if truthy (is_lit (g_attention s)) then g_attention s
                  else st))
              (set_g_lock true s))
    as (r & s1 & -> & Hatt & _ & Hinit & Hheap).
  exists r, (set_g_lock false s1). simpl in *. auto.
Qed.

Lemma set_light_attention_post (k : kernel) (dev : Z)
  (st : light_state_t) (s : state) :
  g_lock s = false ->
  exists r s',
    set_light_attention k dev st s = Some (r, s')
    /\ g_lock s' = false /\ g_attention s' = st
    /\ g_init s' = g_init s /\ heap s' = heap s.
Proof.
  intros Hfree. rewrite set_light_attention_run by assumption.
  unfold set_light_locked.
  destruct (write_str_run k RGB_CONTROL_FILE (blink_pattern st)
              (set_g_attention st (set_g_lock true s)))
    as (r & s1 & -> & Hatt & _ & Hinit & Hheap).
  exists r, (set_g_lock false s1). simpl in *. auto.
Qed.

Lemma set_light_backlight_post (k : kernel) (dev : Z)
  (st : light_state_t) (s : state) :
  g_lock s = false ->
  exists r s',
    set_light_backlight k dev st s = Some (r, s')
    /\ g_lock s' = false /\ g_attention s' = g_attention s
    /\ g_init s' = g_init s /\ heap s' = heap s.
Proof.
  intros Hfree. rewrite set_light_backlight_run by assumption.
  destruct (write_int_run k LCD_FILE (rgb_to_brightness st)
              (set_g_lock true s))
    as (r & s1 & -> & Hatt & _ & Hinit & Hheap).
  exists r, (set_g_lock false s1). simpl in *. auto.
Qed.

(** ** Arbitration between attention and notifications *)

(** C1.  [set_light_notifications] resolves its request against the request
    held in [g_attention]: while that one is lit the indicator LED is driven
    from it, whatever the notification request is; when its low 24 colour
    bits are zero the LED is driven from the notification request.  In
    particular the first [set_light_notifications] after a
    [set_light_attention] that stored an unlit request drives the LED from
    its own request. *)
Theorem notifications_resolve_against_attention (k : kernel) (dev : Z)
  (req : light_state_t) (s : state) :
  g_lock s = false ->
  (truthy (is_lit (g_attention s)) = true ->
     drives_led_from k (g_attention s) s
       (set_light_notifications k dev req s)
     /\ forall req' : light_state_t,
          set_light_notifications k dev req' s =
          set_light_notifications k dev req s)
  /\ (Z.land (color (g_attention s)) 0x00FFFFFF = 0 ->
        drives_led_from k req s (set_light_notifications k dev req s))
  /\ (forall (k0 : kernel) (dev0 : Z) (a : light_state_t) (r0 : Z)
        (s0 : state),
        Z.land (color a) 0x00FFFFFF = 0 ->
        set_light_attention k0 dev0 a s = Some (r0, s0) ->
        drives_led_from k req s0 (set_light_notifications k dev req s0)).
Proof.
  intros Hfree. split; [| split].
  - intros Hlit. split.
    + rewrite set_light_notifications_run, Hlit by assumption.
      apply critical_section_drives.
    + intros req'.
      rewrite !set_light_notifications_run, Hlit by assumption.
      reflexivity.
  - intros Hunlit. apply unlit_iff in Hunlit.
    rewrite set_light_notifications_run, Hunlit by assumption.
    apply critical_section_drives.
  - intros k0 dev0 a r0 s0 Hunlit Hstored.
    destruct (set_light_attention_post k0 dev0 a s Hfree)
      as (r1 & s1 & Hrun & Hfree1 & Hatt & _).
    rewrite Hrun in Hstored. injection Hstored as <- <-.
    apply unlit_iff in Hunlit. rewrite <- Hatt in Hunlit.
    rewrite set_light_notifications_run, Hunlit by assumption.
    apply critical_section_drives.
Qed.

(** ** The level and the blink pattern *)

Section FlashNone.

(** [LIGHT_FLASH_NONE] is a [case] label of the same [switch] as the two
    flashing modes, hence different from both. *)
Hypothesis flash_none_distinct :
  LIGHT_FLASH_NONE <> LIGHT_FLASH_TIMED
  /\ LIGHT_FLASH_NONE <> LIGHT_FLASH_HARDWARE.

Lemma blink_pattern_unfold (st : light_state_t) :
  blink_pattern st =
  sprintf_x (brightness_level st) +:+ "0000 "
    +:+ sprintf_d (fst (flash_times st)) +:+ " "
    +:+ sprintf_d (snd (flash_times st)) +:+ " 1 1".
Proof.
  unfold blink_pattern. now destruct (flash_times st).
Qed.

Lemma flash_times_none (st : light_state_t) :
  flashMode st = LIGHT_FLASH_NONE -> flash_times st = (0, 0).
Proof using flash_none_distinct.
  intros Hnone. destruct flash_none_distinct as [Ht Hh].
  apply flash_times_other; congruence.
Qed.

(** C2, as the code has it.  The line written to the control file of the
    indicator LED is the level in lower-case hexadecimal without padding
    (one digit below 16, two from 16 to 255), then [0000], a space, the on
    and off durations in decimal separated by a space, and [ 1 1]; the writer
    appends a line feed.  It is the two-digit form of the spec exactly for
    levels from 16 on.  The durations are those of the request when
    [flashMode] is TIMED or HARDWARE and 0 when it is NONE or any other
    value. *)
Theorem blink_pattern_written (k : kernel) (st : light_state_t) (s : state) :
  blink_pattern st =
    (if brightness_level st <? 16 then hex1 (brightness_level st)
     else hex2 (brightness_level st))
    +:+ "0000 " +:+ sprintf_d (fst (flash_times st)) +:+ " "
    +:+ sprintf_d (snd (flash_times st)) +:+ " 1 1"
  /\ (16 <= brightness_level st ->
      blink_pattern st =
      spec_toBlinkPattern (brightness_level st) (fst (flash_times st))
        (snd (flash_times st)))
  /\ (flashMode st = LIGHT_FLASH_TIMED \/ flashMode st = LIGHT_FLASH_HARDWARE ->
      flash_times st = (flashOnMS st, flashOffMS st))
  /\ (flashMode st = LIGHT_FLASH_NONE
      \/ (flashMode st <> LIGHT_FLASH_TIMED
          /\ flashMode st <> LIGHT_FLASH_HARDWARE) ->
      flash_times st = (0, 0))
  /\ (forall fd : N,
        k_open k RGB_CONTROL_FILE = Done fd ->
        exists r s',
          set_light_locked k st s = Some (r, s')
          /\ trace s' =
               trace s ++ written RGB_CONTROL_FILE (Z.of_N fd)
                            (blink_pattern st +:+ nl)
                            (sys_int (k_write k (Z.of_N fd)
                                        (blink_pattern st +:+ nl)))).
Proof using flash_none_distinct.
  pose proof (brightness_level_range st) as Hrange.
  split; [| split; [| split; [| split]]].
  - rewrite blink_pattern_unfold, sprintf_x_level by assumption.
    reflexivity.
  - intros Hhigh. rewrite blink_pattern_unfold, sprintf_x_level by assumption.
    unfold spec_toBlinkPattern.
    destruct (Z.ltb_spec (brightness_level st) 16); [lia | reflexivity].
  - apply flash_times_flashing.
  - intros [Hnone | [Ht Hh]].
    + now apply flash_times_none.
    + now apply flash_times_other.
  - intros fd Hopen.
    destruct (set_light_locked_opened k st s fd Hopen)
      as (r & s' & Hrun & _ & Htrace).
    eauto.
Qed.

(** C3.  The level of a request is 0 when the request is not lit;
    otherwise it is the top byte of the colour when that byte is not zero,
    and 255 when it is.  The level is what the pattern starts with.  For
    pure red, colour 0x00FF0000 with no flashing, the level is 255 and the
    pattern is [ff0000 0 0 1 1]. *)
Theorem indicator_level (st : light_state_t) :
  brightness_level st =
    (if truthy (is_lit st) then
       if byte_of (color st) 3 =? 0 then 255 else byte_of (color st) 3
     else 0)
  /\ 0 <= brightness_level st <= 255
  /\ blink_pattern st =
       sprintf_x (brightness_level st) +:+ "0000 "
         +:+ sprintf_d (fst (flash_times st)) +:+ " "
         +:+ sprintf_d (snd (flash_times st)) +:+ " 1 1"
  /\ (color st = 0x00FF0000 -> flashMode st = LIGHT_FLASH_NONE ->
      brightness_level st = 255 /\ blink_pattern st = "ff0000 0 0 1 1").
Proof using flash_none_distinct.
  split; [apply brightness_level_cases |].
  split; [apply brightness_level_range |].
  split; [apply blink_pattern_unfold |].
  intros Hcolor Hnone.
  assert (Hlevel : brightness_level st = 255).
  { rewrite brightness_level_cases. unfold truthy.
    rewrite is_lit_low24, Hcolor. reflexivity. }
  split; [exact Hlevel |].
  rewrite blink_pattern_unfold, Hlevel, flash_times_none by assumption.
  reflexivity.
Qed.

End FlashNone.

(** ** The backlight *)

(** The decimal text of a brightness reads back as that brightness. *)
Lemma sprintf_d_brightness (b : Z) :
  0 <= b <= 255 ->
  Z.of_int <$> DecimalString.NilZero.int_of_string (sprintf_d b) = Some b.
Proof.
  intros Hb.
  assert (Hall : forallb
            (fun n =>
               match DecimalString.NilZero.int_of_string
                       (sprintf_d (Z.of_nat n)) with
               | Some d => Z.of_int d =? Z.of_nat n
               | None => false
               end)
            (seq 0 256) = true) by (vm_compute; reflexivity).
  rewrite forallb_forall in Hall.
  specialize (Hall (Z.to_nat b)). rewrite Z2Nat.id in Hall by lia.
  destruct (DecimalString.NilZero.int_of_string (sprintf_d b)) as [d |].
  - simpl. f_equal. apply Z.eqb_eq, Hall, in_seq. lia.
  - discriminate Hall. apply in_seq. lia.
Qed.

(** C4.  With R, G and B the bytes 2, 1 and 0 of the colour,
    [set_light_backlight] writes the integer (77*R + 150*G + 29*B) >> 8 to
    the backlight file, as a decimal line; the value lies between 0 and 255
    for every colour, and is 76 for colour 0x00FF0000. *)
Theorem backlight_brightness (k : kernel) (dev : Z) (st : light_state_t)
  (s : state) :
  rgb_to_brightness st =
    Z.shiftr (77 * byte_of (color st) 2 + 150 * byte_of (color st) 1
              + 29 * byte_of (color st) 0) 8
  /\ 0 <= rgb_to_brightness st <= 255
  /\ Z.of_int <$>
       DecimalString.NilZero.int_of_string (sprintf_d (rgb_to_brightness st))
     = Some (rgb_to_brightness st)
  /\ (g_lock s = false ->
      forall fd : N,
        k_open k LCD_FILE = Done fd ->
        exists r s',
          set_light_backlight k dev st s = Some (r, s')
          /\ trace s' =
               trace s ++ written LCD_FILE (Z.of_N fd)
                            (sprintf_d (rgb_to_brightness st) +:+ nl)
                            (sys_int (k_write k (Z.of_N fd)
                               (sprintf_d (rgb_to_brightness st) +:+ nl))))
  /\ (color st = 0x00FF0000 -> rgb_to_brightness st = 76).
Proof.
  split; [| split; [| split; [| split]]].
  - rewrite rgb_to_brightness_luma. symmetry. apply Z.shiftr_div_pow2. lia.
  - apply rgb_to_brightness_range.
  - apply sprintf_d_brightness, rgb_to_brightness_range.
  - intros Hfree fd Hopen.
    rewrite set_light_backlight_run by assumption.
    destruct (write_int_opened k LCD_FILE (rgb_to_brightness st)
                (set_g_lock true s) fd Hopen)
      as (r & s' & Hrun & _ & Htrace).
    rewrite Hrun. simpl. exists r, (set_g_lock false s').
    split; [reflexivity |]. exact Htrace.
  - intros Hcolor. rewrite rgb_to_brightness_luma. unfold byte_of.
    rewrite Hcolor. reflexivity.
Qed.

(** ** Lit and unlit requests *)

(** C5.  A request is not lit if and only if the low 24 bits of its colour
    are zero.  Colour 0x80000000 (alpha set, no RGB) is not lit, and while
    it is the request held in [g_attention], [set_light_notifications]
    drives the LED from the notification request. *)
Theorem unlit_iff_low24_zero (st : light_state_t) :
  (truthy (is_lit st) = false <-> Z.land (color st) 0x00FFFFFF = 0)
  /\ (color st = 0x80000000 -> truthy (is_lit st) = false)
  /\ (forall (k : kernel) (dev : Z) (req : light_state_t) (s : state),
        g_lock s = false ->
        g_attention s = st ->
        color st = 0x80000000 ->
        drives_led_from k req s (set_light_notifications k dev req s)).
Proof.
  assert (Halpha : color st = 0x80000000 -> truthy (is_lit st) = false).
  { intros Hcolor. apply unlit_iff. rewrite Hcolor. reflexivity. }
  split; [apply unlit_iff |]. split; [exact Halpha |].
  intros k dev req s Hfree Hatt Hcolor.
  rewrite set_light_notifications_run, Hatt, (Halpha Hcolor) by assumption.
  apply critical_section_drives.
Qed.

(** ** The factory *)

Lemma strcmp_zero (a b : string) : (strcmp a b =? 0) = String.eqb a b.
Proof.
  unfold strcmp. destruct (String.eqb_spec a b) as [-> | Hne].
  - pose proof (String.compare_antisym b b) as Hanti.
    destruct (String.compare b b); [reflexivity | discriminate ..].
  - destruct (String.compare a b) eqn:Hcmp; try reflexivity.
    now apply String.compare_eq_iff in Hcmp.
Qed.

Lemma select_set_light_spec (name : string) :
  select_set_light name =
  if String.eqb "backlight" name then Some fn_set_light_backlight
  else if String.eqb "notifications" name then Some fn_set_light_notifications
  else if String.eqb "attention" name then Some fn_set_light_attention
  else None.
Proof.
  unfold select_set_light. rewrite !strcmp_zero. reflexivity.
Qed.

Lemma open_lights_selected (module : Z) (name : string) (fn : set_light_fn)
  (s : state) :
  select_set_light name = Some fn -> opens module name fn s.
Proof.
  intros Hsel. unfold opens, open_lights. rewrite Hsel.
  unfold pthread_once_g_init, init_globals, malloc_memset, store.
  unfold_M.
  exists (fresh (dom (heap s))).
  assert (Hfresh : heap s !! fresh (dom (heap s)) = None)
    by apply not_elem_of_dom, is_fresh.
  destruct (g_init s) eqn:Hinit; simpl; eexists;
    (split; [reflexivity |]); simpl; rewrite ?Hinit;
    rewrite !alter_insert_eq; auto.
Qed.

(** C6.  [open_lights] succeeds exactly on the three recognized
    identifiers, binding the device it allocates to the operation of that
    name; on any other name it returns [-EINVAL], a negative number, stores
    nothing in [*device] and leaves the whole state, heap included, as it
    was. *)
Theorem open_lights_recognized (module : Z) (name : string) (s : state) :
  (name = "backlight" -> opens module name fn_set_light_backlight s)
  /\ (name = "notifications" ->
      opens module name fn_set_light_notifications s)
  /\ (name = "attention" -> opens module name fn_set_light_attention s)
  /\ (name <> "backlight" -> name <> "notifications" ->
      name <> "attention" ->
      open_lights module name s = Some ((- Z.pos EINVAL, None), s)
      /\ - Z.pos EINVAL < 0)
  /\ ((exists (out : option Z) (s' : state),
         open_lights module name s = Some ((0, out), s'))
      <-> name = "backlight" \/ name = "notifications"
          \/ name = "attention").
Proof.
  assert (Hother : name <> "backlight" -> name <> "notifications" ->
                   name <> "attention" ->
                   open_lights module name s = Some ((- Z.pos EINVAL, None), s)).
  { intros Hb Hn Ha. unfold open_lights.
    rewrite select_set_light_spec.
    rewrite !(proj2 (String.eqb_neq _ _)) by congruence. reflexivity. }
  split; [| split; [| split; [| split]]].
  - intros ->. now apply open_lights_selected.
  - intros ->. now apply open_lights_selected.
  - intros ->. now apply open_lights_selected.
  - intros Hb Hn Ha. split; [now apply Hother | lia].
  - split.
    + intros (out & s' & Hrun).
      destruct (String.eqb_spec name "backlight") as [| Hb]; [auto |].
      destruct (String.eqb_spec name "notifications") as [| Hn]; [auto |].
      destruct (String.eqb_spec name "attention") as [| Ha]; [auto |].
      rewrite (Hother Hb Hn Ha) in Hrun. injection Hrun as Hret _ _. lia.
    + intros [-> | [-> | ->]].
      * destruct (open_lights_selected module "backlight"
                    fn_set_light_backlight s eq_refl) as (p & s' & Hrun & _).
        eauto.
      * destruct (open_lights_selected module "notifications"
                    fn_set_light_notifications s eq_refl)
          as (p & s' & Hrun & _).
        eauto.
      * destruct (open_lights_selected module "attention"
                    fn_set_light_attention s eq_refl) as (p & s' & Hrun & _).
        eauto.
Qed.

(** ** Results of the writers *)

Lemma write_str_result (k : kernel) (path value : string) (s : state) :
  writer_result k path (value +:+ nl) (write_str_already_warned s)
    ("write_str failed to open " +:+ path +:+ nl)
    (write_str k path value s).
Proof.
  unfold writer_result, write_str. unfold_io.
  destruct (k_open k path) as [[| fd] | e]; simpl.
  1, 2: step_write sys_write_whole;
    destruct (k_write k _ _) as [[| amt] | e'], (k_close k _) as [e'' |];
    simpl; do 2 eexists; (split; [reflexivity |]); simpl;
    try reflexivity; repeat split; try lia; discriminate.
  destruct (Z.eqb_spec (write_str_already_warned s) 0) as [Hw | Hw]; simpl;
    [destruct (k_log k _) as [e'' |] |]; simpl;
    do 2 eexists; (split; [reflexivity |]); simpl;
    repeat split; try lia; intros [? | ?]; congruence.
Qed.

Lemma write_int_result (k : kernel) (path : string) (value : Z) (s : state) :
  writer_result k path (sprintf_d value +:+ nl) (write_int_already_warned s)
    ("write_int failed to open " +:+ path +:+ nl)
    (write_int k path value s).
Proof.
  unfold writer_result, write_int. unfold_io.
  destruct (k_open k path) as [[| fd] | e]; simpl.
  1, 2: step_write sys_write_whole;
    destruct (k_write k _ _) as [[| amt] | e'], (k_close k _) as [e'' |];
    simpl; do 2 eexists; (split; [reflexivity |]); simpl;
    try reflexivity; repeat split; try lia; discriminate.
  destruct (Z.eqb_spec (write_int_already_warned s) 0) as [Hw | Hw]; simpl;
    [destruct (k_log k _) as [e'' |] |]; simpl;
    do 2 eexists; (split; [reflexivity |]); simpl;
    repeat split; try lia; intros [? | ?]; congruence.
Qed.

(** C7.  Both writers return 0 on success and minus the system error code
    when [open] or [write] fails; a short write, which [write] does not
    report as a failure, gives 0; and each of the three operations returns
    the result of its writer unchanged. *)
Theorem sysfs_write_results (k : kernel) (s : state) :
  (forall (path : string) (value : Z),
      writer_result k path (sprintf_d value +:+ nl)
        (write_int_already_warned s)
        ("write_int failed to open " +:+ path +:+ nl)
        (write_int k path value s))
  /\ (forall path value : string,
        writer_result k path (value +:+ nl) (write_str_already_warned s)
          ("write_str failed to open " +:+ path +:+ nl)
          (write_str k path value s))
  /\ (forall (path : string) (value : Z) (fd amt : N),
        k_open k path = Done fd ->
        k_write k (Z.of_N fd) (sprintf_d value +:+ nl) = Done amt ->
        (amt < N.of_nat (String.length (sprintf_d value +:+ nl)))%N ->
        exists s', write_int k path value s = Some (0, s'))
  /\ (forall (path value : string) (fd amt : N),
        k_open k path = Done fd ->
        k_write k (Z.of_N fd) (value +:+ nl) = Done amt ->
        (amt < N.of_nat (String.length (value +:+ nl)))%N ->
        exists s', write_str k path value s = Some (0, s'))
  /\ (g_lock s = false ->
      forall (dev : Z) (st : light_state_t),
        (exists r s1,
            write_int k LCD_FILE (rgb_to_brightness st) (set_g_lock true s)
            = Some (r, s1)
            /\ set_light_backlight k dev st s
               = Some (r, set_g_lock false s1))
        /\ (exists r s1,
               write_str k RGB_CONTROL_FILE
                 (blink_pattern
                    (if truthy (is_lit (g_attention s)) then g_attention s
                     else st))
                 (set_g_lock true s)
               = Some (r, s1)
               /\ set_light_notifications k dev st s
                  = Some (r, set_g_lock false s1))
        /\ (exists r s1,
               write_str k RGB_CONTROL_FILE (blink_pattern st)
                 (set_g_attention st (set_g_lock true s))
               = Some (r, s1)
               /\ set_light_attention k dev st s
                  = Some (r, set_g_lock false s1))).
Proof.
  split; [intros; apply write_int_result |].
  split; [intros; apply write_str_result |].
  split; [| split].
  - intros path value fd amt Hopen Hwrite _.
    destruct (write_int_opened k path value s fd Hopen)
      as (r & s' & Hrun & Hr & _).
    rewrite Hwrite in Hr. subst r. eauto.
  - intros path value fd amt Hopen Hwrite _.
    destruct (write_str_opened k path value s fd Hopen)
      as (r & s' & Hrun & Hr & _).
    rewrite Hwrite in Hr. subst r. eauto.
  - intros Hfree dev st. repeat split.
    + destruct (write_int_run k LCD_FILE (rgb_to_brightness st)
                  (set_g_lock true s)) as (r & s1 & Hrun & _).
      exists r, s1. split; [exact Hrun |].
      rewrite set_light_backlight_run, Hrun by assumption. reflexivity.
    + destruct (write_str_run k RGB_CONTROL_FILE
                  (blink_pattern
                     (if truthy (is_lit (g_attention s)) then g_attention s
                      else st))
                  (set_g_lock true s)) as (r & s1 & Hrun & _).
      exists r, s1. split; [exact Hrun |].
      rewrite set_light_notifications_run by assumption.
      unfold set_light_locked. rewrite Hrun. reflexivity.
    + destruct (write_str_run k RGB_CONTROL_FILE (blink_pattern st)
                  (set_g_attention st (set_g_lock true s)))
        as (r & s1 & Hrun & _).
      exists r, s1. split; [exact Hrun |].
      rewrite set_light_attention_run by assumption.
      unfold set_light_locked. rewrite Hrun. reflexivity.
Qed.

(** ** What the operations do to [g_attention] *)

Lemma set_light_backlight_attention (k : kernel) (dev : Z)
  (st a : light_state_t) (s : state) :
  set_light_backlight k dev st (set_g_attention a s) =
  with_attention a <$> set_light_backlight k dev st s.
Proof.
  unfold set_light_backlight, pthread_mutex_lock, pthread_mutex_unlock.
  unfold_M. simpl. destruct (g_lock s); [reflexivity |].
  change (set_g_lock true (set_g_attention a s))
    with (set_g_attention a (set_g_lock true s)).
  rewrite write_int_attention.
  destruct (write_int k _ _ _) as [[r s1] |]; reflexivity.
Qed.

(** C8, as the code has it.  [set_light_notifications] and
    [set_light_backlight] return with [g_attention] as it was before the
    call, whatever the outcome of the write, and [set_light_backlight] does
    not read it either: run with any other request in [g_attention] it
    gives the same result and the same state but for that request.
    [set_light_attention] returns with its request in [g_attention],
    whether or not the write failed. *)
Theorem attention_state_frame (k : kernel) (dev : Z) (req : light_state_t)
  (s : state) :
  g_lock s = false ->
  (exists r s',
      set_light_notifications k dev req s = Some (r, s')
      /\ g_attention s' = g_attention s)
  /\ (exists r s',
         set_light_backlight k dev req s = Some (r, s')
         /\ g_attention s' = g_attention s)
  /\ (forall a : light_state_t,
        set_light_backlight k dev req (set_g_attention a s) =
        with_attention a <$> set_light_backlight k dev req s)
  /\ (exists r s',
         set_light_attention k dev req s = Some (r, s')
         /\ g_attention s' = req).
Proof.
  intros Hfree. split; [| split; [| split]].
  - destruct (set_light_notifications_post k dev req s Hfree)
      as (r & s' & Hrun & _ & Hatt & _).
    eauto.
  - destruct (set_light_backlight_post k dev req s Hfree)
      as (r & s' & Hrun & _ & Hatt & _).
    eauto.
  - intros a. apply set_light_backlight_attention.
  - destruct (set_light_attention_post k dev req s Hfree)
      as (r & s' & Hrun & _ & Hatt & _).
    eauto.
Qed.

(** ** [set_light_attention] and the request it replaces *)

Lemma set_light_attention_erase (k : kernel) (dev : Z) (req : light_state_t)
  (s : state) :
  set_light_attention k dev req s =
  set_light_attention k dev req (set_g_attention light_state_zero s).
Proof.
  unfold set_light_attention, handle_led_prioritized_locked,
    pthread_mutex_lock, pthread_mutex_unlock.
  unfold_M. simpl. destruct (g_lock s); reflexivity.
Qed.

(** C10.  What [set_light_attention] writes and returns does not depend on
    the request held in [g_attention] before the call: from two states that
    differ at most there, the two runs end with the same result in the same
    state, trace included.  The request is stored first, and the LED is then
    driven from it, lit or not. *)
Theorem attention_independent_of_prior (k : kernel) (dev : Z)
  (req : light_state_t) (s1 s2 : state) :
  agree_but_attention s1 s2 ->
  g_lock s1 = false ->
  set_light_attention k dev req s1 = set_light_attention k dev req s2
  /\ (exists r s',
         set_light_attention k dev req s1 = Some (r, s')
         /\ set_light_attention k dev req s2 = Some (r, s')
         /\ g_attention s' = req)
  /\ set_light_attention k dev req s1 =
       (unlocked <$>
          set_light_locked k req (set_g_attention req (set_g_lock true s1)))
  /\ (forall fd : N,
        k_open k RGB_CONTROL_FILE = Done fd ->
        exists r s',
          set_light_attention k dev req s2 = Some (r, s')
          /\ trace s' =
               trace s1 ++ written RGB_CONTROL_FILE (Z.of_N fd)
                             (blink_pattern req +:+ nl)
                             (sys_int (k_write k (Z.of_N fd)
                                         (blink_pattern req +:+ nl)))).
Proof.
  intros Hagree Hfree.
  assert (Hsame : set_light_attention k dev req s1
                  = set_light_attention k dev req s2).
  { rewrite (set_light_attention_erase k dev req s1),
      (set_light_attention_erase k dev req s2).
    unfold agree_but_attention in Hagree. now rewrite Hagree. }
  split; [exact Hsame |]. split; [| split].
  - destruct (set_light_attention_post k dev req s1 Hfree)
      as (r & s' & Hrun & _ & Hatt & _).
    exists r, s'. rewrite <- Hsame. auto.
  - now apply set_light_attention_run.
  - intros fd Hopen. rewrite <- Hsame.
    rewrite set_light_attention_run by assumption.
    destruct (set_light_locked_opened k req
                (set_g_attention req (set_g_lock true s1)) fd Hopen)
      as (r & s' & Hrun & _ & Htrace).
    rewrite Hrun. simpl. exists r, (set_g_lock false s').
    split; [reflexivity |]. exact Htrace.
Qed.

(** ** The mutex, the handles and the warnings *)

(** X1.  An operation entered while the mutex is held does not proceed;
    entered with the mutex free it runs its writer with the mutex held and
    returns with the mutex released. *)
Theorem operations_lock_discipline (k : kernel) (dev : Z)
  (st : light_state_t) (s : state) :
  (g_lock s = true ->
     set_light_backlight k dev st s = None
     /\ set_light_notifications k dev st s = None
     /\ set_light_attention k dev st s = None)
  /\ (g_lock s = false ->
      (exists r s1,
          write_int k LCD_FILE (rgb_to_brightness st) (set_g_lock true s)
          = Some (r, s1)
          /\ g_lock s1 = true
          /\ set_light_backlight k dev st s = Some (r, set_g_lock false s1))
      /\ (exists r s',
             set_light_notifications k dev st s = Some (r, s')
             /\ g_lock s' = false)
      /\ (exists r s',
             set_light_attention k dev st s = Some (r, s')
             /\ g_lock s' = false)).
Proof.
  split.
  - intros Hheld.
    unfold set_light_backlight, set_light_notifications, set_light_attention,
      pthread_mutex_lock.
    unfold_M. now rewrite Hheld.
  - intros Hfree. split; [| split].
    + destruct (write_int_run k LCD_FILE (rgb_to_brightness st)
                  (set_g_lock true s)) as (r & s1 & Hrun & _ & Hlock & _).
      exists r, s1. split; [exact Hrun |]. split; [exact Hlock |].
      rewrite set_light_backlight_run, Hrun by assumption. reflexivity.
    + destruct (set_light_notifications_post k dev st s Hfree)
        as (r & s' & Hrun & Hlock & _).
      eauto.
    + destruct (set_light_attention_post k dev st s Hfree)
        as (r & s' & Hrun & Hlock & _).
      eauto.
Qed.

Lemma open_lights_handle (module : Z) (name : string) (dev : Z)
  (s s' : state) :
  open_lights module name s = Some ((0, Some dev), s') ->
  exists p : positive,
    dev = Z.pos p /\ heap s !! p = None
    /\ exists d : light_device_t, heap s' = <[p := d]> (heap s).
Proof.
  intros Hopen.
  destruct (select_set_light name) as [fn |] eqn:Hsel.
  - destruct (open_lights_selected module name fn s Hsel)
      as (p & s0 & Hrun & Hfree & Hheap & _).
    rewrite Hrun in Hopen. injection Hopen as <- <-. eauto.
  - unfold open_lights in Hopen. rewrite Hsel in Hopen.
    injection Hopen as Hret _. lia.
Qed.

(** X2.  [close_lights] returns 0 for every handle.  A null handle leaves
    the state as it is; the handle of a successful [open_lights] is freed,
    which leaves the heap as it was before the open. *)
Theorem close_lights_frees (module : Z) (name : string) (s : state) :
  close_lights 0 s = Some (0, s)
  /\ (forall p : positive,
        close_lights (Z.pos p) s
        = Some (0, set_heap (delete p (heap s)) s))
  /\ (forall (dev : Z) (s' : state),
        open_lights module name s = Some ((0, Some dev), s') ->
        exists s'',
          close_lights dev s' = Some (0, s'') /\ heap s'' = heap s).
Proof.
  split; [reflexivity |]. split; [reflexivity |].
  intros dev s' Hopen.
  destruct (open_lights_handle module name dev s s' Hopen)
    as (p & -> & Hfree & d & Hheap).
  eexists. split; [reflexivity |]. simpl.
  rewrite Hheap. now apply delete_insert_id.
Qed.

(** X3.  A writer logs its warning at its first failed [open] only: the
    flag is one per writer, whatever the path. *)
Theorem writers_warn_once (k : kernel) (path value : string) (e : positive)
  (s : state) :
  (k_open k path = Failed e -> write_str_already_warned s = 0 ->
     exists r s',
       write_str k path value s = Some (r, s')
       /\ write_str_already_warned s' = 1
       /\ trace s' =
            trace s ++ [EvOpen path (-1);
                        EvLog ("write_str failed to open " +:+ path +:+ nl)])
  /\ (k_open k path = Failed e -> write_str_already_warned s <> 0 ->
      exists r s',
        write_str k path value s = Some (r, s')
        /\ write_str_already_warned s' = write_str_already_warned s
        /\ trace s' = trace s ++ [EvOpen path (-1)]).
Proof.
  split; intros Hopen Hwarned; unfold write_str; unfold_io; rewrite Hopen;
    simpl.
  - rewrite Hwarned. simpl.
    destruct (k_log k _); simpl; do 2 eexists;
      (split; [reflexivity |]); simpl;
      (split; [reflexivity |]); now rewrite <- app_assoc.
  - apply Z.eqb_neq in Hwarned. rewrite Hwarned. simpl.
    do 2 eexists. split; [reflexivity |]. simpl.
    split; reflexivity.
Qed.

(** ** More on the writers *)

Lemma write_str_events (k : kernel) (path value : string) (s : state) :
  exists r s',
    write_str k path value s = Some (r, s')
    /\ trace s' =
         trace s ++ writer_events k path (value +:+ nl)
                      ("write_str failed to open " +:+ path +:+ nl)
                      (write_str_already_warned s =? 0)
    /\ write_int_already_warned s' = write_int_already_warned s
    /\ write_str_already_warned s' =
         match k_open k path with
         | Done _ => write_str_already_warned s
         | Failed _ =>
             if write_str_already_warned s =? 0 then 1
             else write_str_already_warned s
         end
    /\ (forall fd amt,
          k_open k path = Done fd ->
          k_write k (Z.of_N fd) (value +:+ nl) = Done amt ->
          k_close k (Z.of_N fd) = None ->
          errno s' = errno s).
Proof.
  unfold write_str, writer_events, written. unfold_io.
  destruct (k_open k path) as [[| fd] | e]; simpl.
  1, 2: step_write sys_write_whole;
    destruct (k_write k _ _) as [[| amt] | e'] eqn:Hkw,
      (k_close k _) as [e'' |] eqn:Hkc;
    simpl; do 2 eexists; (split; [reflexivity |]); simpl;
    rewrite <- ?app_assoc; (split; [reflexivity |]);
    (split; [reflexivity |]); (split; [reflexivity |]);
    intros fd0 amt0 Ho Hw Hc;
    injection Ho as <-; simpl in Hw, Hc; rewrite ?Hkw in Hw;
    rewrite ?Hkc in Hc; try discriminate Hw; try discriminate Hc;
    reflexivity.
  destruct (write_str_already_warned s =? 0); simpl;
    [destruct (k_log k _) |]; simpl; do 2 eexists;
    (split; [reflexivity |]); simpl; rewrite <- ?app_assoc;
    (split; [reflexivity |]); (split; [reflexivity |]);
    (split; [reflexivity |]); intros fd0 amt0 Ho; discriminate Ho.
Qed.

Lemma write_int_events (k : kernel) (path : string) (value : Z) (s : state) :
  exists r s',
    write_int k path value s = Some (r, s')
    /\ trace s' =
         trace s ++ writer_events k path (sprintf_d value +:+ nl)
                      ("write_int failed to open " +:+ path +:+ nl)
                      (write_int_already_warned s =? 0)
    /\ write_str_already_warned s' = write_str_already_warned s
    /\ write_int_already_warned s' =
         match k_open k path with
         | Done _ => write_int_already_warned s
         | Failed _ =>
             if write_int_already_warned s =? 0 then 1
             else write_int_already_warned s
         end
    /\ (forall fd amt,
          k_open k path = Done fd ->
          k_write k (Z.of_N fd) (sprintf_d value +:+ nl) = Done amt ->
          k_close k (Z.of_N fd) = None ->
          errno s' = errno s).
Proof.
  unfold write_int, writer_events, written. unfold_io.
  destruct (k_open k path) as [[| fd] | e]; simpl.
  1, 2: step_write sys_write_whole;
    destruct (k_write k _ _) as [[| amt] | e'] eqn:Hkw,
      (k_close k _) as [e'' |] eqn:Hkc;
    simpl; do 2 eexists; (split; [reflexivity |]); simpl;
    rewrite <- ?app_assoc; (split; [reflexivity |]);
    (split; [reflexivity |]); (split; [reflexivity |]);
    intros fd0 amt0 Ho Hw Hc;
    injection Ho as <-; simpl in Hw, Hc; rewrite ?Hkw in Hw;
    rewrite ?Hkc in Hc; try discriminate Hw; try discriminate Hc;
    reflexivity.
  destruct (write_int_already_warned s =? 0); simpl;
    [destruct (k_log k _) |]; simpl; do 2 eexists;
    (split; [reflexivity |]); simpl; rewrite <- ?app_assoc;
    (split; [reflexivity |]); (split; [reflexivity |]);
    (split; [reflexivity |]); intros fd0 amt0 Ho; discriminate Ho.
Qed.

(** X4.  A writer closes the descriptor it opened, once, also when [write]
    fails; when [open] fails it neither writes nor closes; and when [open],
    [write] and [close] all succeed it leaves [errno] as it found it. *)
Theorem writers_close_what_they_open (k : kernel) (path text : string)
  (value : Z) (s : state) :
  (exists r s',
      write_str k path text s = Some (r, s')
      /\ trace s' =
           trace s ++ writer_events k path (text +:+ nl)
                        ("write_str failed to open " +:+ path +:+ nl)
                        (write_str_already_warned s =? 0)
      /\ (forall fd amt,
            k_open k path = Done fd ->
            k_write k (Z.of_N fd) (text +:+ nl) = Done amt ->
            k_close k (Z.of_N fd) = None ->
            errno s' = errno s))
  /\ (exists r s',
         write_int k path value s = Some (r, s')
         /\ trace s' =
              trace s ++ writer_events k path (sprintf_d value +:+ nl)
                           ("write_int failed to open " +:+ path +:+ nl)
                           (write_int_already_warned s =? 0)
         /\ (forall fd amt,
               k_open k path = Done fd ->
               k_write k (Z.of_N fd) (sprintf_d value +:+ nl) = Done amt ->
               k_close k (Z.of_N fd) = None ->
               errno s' = errno s))
  /\ (forall (buffer msg : string) (logged : bool) (fd : N),
        k_open k path = Done fd ->
        writer_events k path buffer msg logged =
        [EvOpen path (Z.of_N fd);
         EvWrite (Z.of_N fd) buffer (sys_int (k_write k (Z.of_N fd) buffer));
         EvClose (Z.of_N fd)])
  /\ (forall (buffer msg : string) (logged : bool) (e : positive),
        k_open k path = Failed e ->
        writer_events k path buffer msg logged = [EvOpen path (-1)]
        \/ writer_events k path buffer msg logged
           = [EvOpen path (-1); EvLog msg]).
Proof.
  split; [| split; [| split]].
  - destruct (write_str_events k path text s)
      as (r & s' & Hrun & Htrace & _ & _ & Herrno).
    eauto.
  - destruct (write_int_events k path value s)
      as (r & s' & Hrun & Htrace & _ & _ & Herrno).
    eauto.
  - intros buffer msg logged fd Hopen.
    unfold writer_events. now rewrite Hopen.
  - intros buffer msg logged e Hopen.
    unfold writer_events. rewrite Hopen. destruct logged; auto.
Qed.

(** X5.  [write_int] too logs its warning at its first failed [open] only,
    and each writer has a flag of its own: no call of one writer changes the
    [already_warned] of the other, and a flag once set is never cleared. *)
Theorem writers_warn_independently (k : kernel) (path text : string)
  (value : Z) (s : state) :
  (exists r s',
      write_int k path value s = Some (r, s')
      /\ write_str_already_warned s' = write_str_already_warned s
      /\ (write_int_already_warned s <> 0 ->
          write_int_already_warned s' = write_int_already_warned s)
      /\ (forall e : positive,
            k_open k path = Failed e ->
            write_int_already_warned s' <> 0
            /\ trace s' =
                 trace s ++
                 EvOpen path (-1) ::
                 (if write_int_already_warned s =? 0
                  then [EvLog ("write_int failed to open " +:+ path +:+ nl)]
                  else [])))
  /\ (exists r s',
         write_str k path text s = Some (r, s')
         /\ write_int_already_warned s' = write_int_already_warned s
         /\ (write_str_already_warned s <> 0 ->
             write_str_already_warned s' = write_str_already_warned s)).
Proof.
  split.
  - destruct (write_int_events k path value s)
      as (r & s' & Hrun & Htrace & Hother & Hown & _).
    exists r, s'. split; [exact Hrun |]. split; [exact Hother |]. split.
    + intros Hset. rewrite Hown. apply Z.eqb_neq in Hset.
      destruct (k_open k path); [reflexivity | now rewrite Hset].
    + intros e Hopen. unfold writer_events in Htrace.
      rewrite Hopen in Htrace, Hown. split; [| exact Htrace].
      rewrite Hown.
      destruct (Z.eqb_spec (write_int_already_warned s) 0); [lia | assumption].
  - destruct (write_str_events k path text s)
      as (r & s' & Hrun & _ & Hother & Hown & _).
    exists r, s'. split; [exact Hrun |]. split; [exact Hother |].
    intros Hset. rewrite Hown. apply Z.eqb_neq in Hset.
    destruct (k_open k path); [reflexivity | now rewrite Hset].
Qed.

(** ** More on the codec *)

(** X6.  The level written for a request is 0 exactly when the request is
    not lit: a lit request never switches the LED off, whatever its top
    byte, its level lying between 1 and 255. *)
Theorem level_zero_iff_unlit (st : light_state_t) :
  (brightness_level st = 0 <-> Z.land (color st) 0x00FFFFFF = 0)
  /\ (Z.land (color st) 0x00FFFFFF <> 0 -> 1 <= brightness_level st <= 255)
  /\ (Z.land (color st) 0x00FFFFFF <> 0 -> byte_of (color st) 3 = 0 ->
      brightness_level st = 255)
  /\ (Z.land (color st) 0x00FFFFFF <> 0 -> byte_of (color st) 3 <> 0 ->
      brightness_level st = byte_of (color st) 3).
Proof.
  pose proof (byte_of_range (color st) 3) as Hbyte.
  rewrite brightness_level_cases.
  split; [| split; [| split]].
  - rewrite <- unlit_iff.
    destruct (truthy (is_lit st)); [| easy].
    destruct (Z.eqb_spec (byte_of (color st) 3) 0); split; intros; lia
      || discriminate.
  - intros Hlit. apply lit_iff in Hlit. rewrite Hlit.
    destruct (Z.eqb_spec (byte_of (color st) 3) 0); lia.
  - intros Hlit Htop. apply lit_iff in Hlit. now rewrite Hlit, Htop.
  - intros Hlit Htop. apply lit_iff in Hlit. rewrite Hlit.
    apply Z.eqb_neq in Htop. now rewrite Htop.
Qed.

Lemma bytes_of_low24 (c c' : Z) (n : Z) :
  n = 0 \/ n = 1 \/ n = 2 ->
  Z.land c 0x00FFFFFF = Z.land c' 0x00FFFFFF ->
  byte_of c n = byte_of c' n.
Proof.
  intros Hn Hlow. rewrite !land_low24 in Hlow.
  rewrite <- !low24_byte by assumption. now rewrite Hlow.
Qed.

(** X7.  The backlight brightness depends on the low 24 bits of the colour
    only (the top byte and the flash fields play no part); a grey, whose
    three channels are equal, gives the value of its channels; the
    brightness grows with each channel; and it is 0 exactly when
    77*R + 150*G + 29*B is below 256, which a dim colour such as pure blue 8
    satisfies without being black. *)
Theorem backlight_brightness_shape (st st' : light_state_t) :
  (Z.land (color st) 0x00FFFFFF = Z.land (color st') 0x00FFFFFF ->
   rgb_to_brightness st = rgb_to_brightness st')
  /\ (byte_of (color st) 1 = byte_of (color st) 0 ->
      byte_of (color st) 2 = byte_of (color st) 0 ->
      rgb_to_brightness st = byte_of (color st) 0)
  /\ (byte_of (color st) 0 <= byte_of (color st') 0 ->
      byte_of (color st) 1 <= byte_of (color st') 1 ->
      byte_of (color st) 2 <= byte_of (color st') 2 ->
      rgb_to_brightness st <= rgb_to_brightness st')
  /\ (rgb_to_brightness st = 0 <->
      77 * byte_of (color st) 2 + 150 * byte_of (color st) 1
      + 29 * byte_of (color st) 0 < 256).
Proof.
  pose proof (byte_of_range (color st) 0).
  pose proof (byte_of_range (color st) 1).
  pose proof (byte_of_range (color st) 2).
  rewrite !rgb_to_brightness_luma.
  split; [| split; [| split]].
  - intros Hlow.
    rewrite (bytes_of_low24 _ _ 0 ltac:(lia) Hlow),
      (bytes_of_low24 _ _ 1 ltac:(lia) Hlow),
      (bytes_of_low24 _ _ 2 ltac:(lia) Hlow).
    reflexivity.
  - intros -> ->.
    replace (77 * byte_of (color st) 0 + 150 * byte_of (color st) 0
             + 29 * byte_of (color st) 0)
      with (byte_of (color st) 0 * 2 ^ 8) by lia.
    apply Z.div_mul. lia.
  - intros Hb Hg Hr. apply Z.div_le_mono; lia.
  - change (2 ^ 8) with 256. split.
    + intros Hzero.
      apply Z.div_small_iff in Hzero; lia.
    + intros Hsmall. apply Z.div_small. lia.
Qed.

Lemma append_assoc (a b c : string) : (a +:+ b) +:+ c = a +:+ (b +:+ c).
Proof.
  induction a as [| x a IH]; [reflexivity |].
  change (String x ((a +:+ b) +:+ c) = String x (a +:+ (b +:+ c))).
  now f_equal.
Qed.

Lemma length_append (a b : string) :
  String.length (a +:+ b) = (String.length a + String.length b)%nat.
Proof.
  induction a as [| x a IH]; [reflexivity |].
  change (S (String.length (a +:+ b))
          = S (String.length a + String.length b)).
  now f_equal.
Qed.

(** [%d] reads back as the [int] that was printed. *)
Lemma sprintf_d_reads_back (v : Z) : dec_value (sprintf_d v) = Some (int32 v).
Proof.
  unfold dec_value, sprintf_d.
  rewrite DecimalString.NilZero.isi.
  - simpl. now rewrite DecimalZ.of_to.
  - destruct (int32 v) as [| p | p]; simpl; try discriminate.
    intros Heq. injection Heq as Heq.
    now apply (DecimalPos.Unsigned.to_uint_nonnil p).
  - destruct (int32 v) as [| p | p]; simpl; try discriminate.
    intros Heq. injection Heq as Heq.
    now apply (DecimalPos.Unsigned.to_uint_nonnil p).
Qed.

(** The colour field of the pattern, read as a hexadecimal number, has the
    level as its red byte and zero green and blue bytes. *)
Lemma colour_field_reads_back (level : Z) :
  0 <= level <= 255 ->
  hex_value (sprintf_x level +:+ "0000") = Some (level * 2 ^ 16).
Proof.
  intros Hl.
  assert (Hall : forallb
            (fun n => let l := Z.of_nat n in
               match hex_value (sprintf_x l +:+ "0000") with
               | Some v => v =? l * 2 ^ 16
               | None => false
               end)
            (seq 0 256) = true) by (vm_compute; reflexivity).
  rewrite forallb_forall in Hall.
  specialize (Hall (Z.to_nat level)).
  cbv zeta in Hall. rewrite Z2Nat.id in Hall by lia.
  destruct (hex_value (sprintf_x level +:+ "0000")) as [v |].
  - f_equal. apply Z.eqb_eq, Hall, in_seq. lia.
  - discriminate Hall. apply in_seq. lia.
Qed.

(** X8.  The line of [set_light_locked] can be read back: it is a colour
    field, the two durations and [1 1], separated by single spaces; the
    colour field read in hexadecimal is the level in the red byte with zero
    green and blue bytes, and each duration field read in decimal is the
    [int] that was printed. *)
Theorem blink_pattern_reads_back (st : light_state_t) :
  blink_pattern st =
    (sprintf_x (brightness_level st) +:+ "0000") +:+ " "
    +:+ sprintf_d (fst (flash_times st)) +:+ " "
    +:+ sprintf_d (snd (flash_times st)) +:+ " 1 1"
  /\ hex_value (sprintf_x (brightness_level st) +:+ "0000")
     = Some (brightness_level st * 2 ^ 16)
  /\ byte_of (brightness_level st * 2 ^ 16) 2 = brightness_level st
  /\ byte_of (brightness_level st * 2 ^ 16) 1 = 0
  /\ byte_of (brightness_level st * 2 ^ 16) 0 = 0
  /\ dec_value (sprintf_d (fst (flash_times st)))
     = Some (int32 (fst (flash_times st)))
  /\ dec_value (sprintf_d (snd (flash_times st)))
     = Some (int32 (snd (flash_times st))).
Proof.
  pose proof (brightness_level_range st) as Hrange.
  split; [| split; [| split; [| split; [| split; [| split]]]]].
  - rewrite blink_pattern_unfold, append_assoc. reflexivity.
  - now apply colour_field_reads_back.
  - unfold byte_of. change (8 * 2) with 16.
    rewrite Z.div_mul by lia. apply Z.mod_small. lia.
  - unfold byte_of. change (8 * 1) with 8.
    change (2 ^ 16) with (2 ^ 8 * 2 ^ 8).
    rewrite Z.mul_assoc, Z.div_mul by lia. apply Z.mod_mul. lia.
  - unfold byte_of. change (8 * 0) with 0. change (2 ^ 0) with 1.
    rewrite Z.div_1_r. change (2 ^ 16) with (2 ^ 8 * 2 ^ 8).
    rewrite Z.mul_assoc. apply Z.mod_mul. lia.
  - apply sprintf_d_reads_back.
  - apply sprintf_d_reads_back.
Qed.

(** ** The buffers *)

Lemma string_of_uint_length (d : Decimal.uint) :
  String.length (DecimalString.NilEmpty.string_of_uint d)
  = Decimal.nb_digits d.
Proof. induction d; simpl; congruence. Qed.

Lemma string_of_uint_nonnil_length (d : Decimal.uint) :
  d <> Decimal.Nil ->
  String.length (DecimalString.NilZero.string_of_uint d)
  = Decimal.nb_digits d.
Proof.
  intros Hnil. rewrite <- string_of_uint_length.
  destruct d; [contradiction | reflexivity ..].
Qed.

Lemma usize_nb_digits (d : Decimal.uint) :
  DecimalPos.Unsigned.usize d = N.of_nat (Decimal.nb_digits d).
Proof.
  induction d; simpl Decimal.nb_digits; simpl DecimalPos.Unsigned.usize;
    rewrite ?IHd; lia.
Qed.

(** The numeral of a positive number starts with a digit other than 0. *)
Lemma to_uint_leading (p : positive) : leading_digit (Pos.to_uint p).
Proof.
  pose proof (DecimalPos.Unsigned.to_of (Pos.to_uint p)) as Hnorm.
  rewrite DecimalPos.Unsigned.of_to in Hnorm. simpl in Hnorm.
  pose proof (DecimalPos.Unsigned.to_uint_nonzero p) as Hzero.
  unfold Decimal.unorm in Hnorm.
  destruct (Decimal.nzhead (Pos.to_uint p)) eqn:Hhead;
    rewrite Hnorm; try exact I.
  - now apply Hzero.
  - now apply (DecimalFacts.nzhead_nonzero _ _ Hhead).
Qed.

(** A numeral of n digits that starts with a digit other than 0 denotes at
    least 10^(n-1). *)
Lemma leading_digit_value (d : Decimal.uint) :
  leading_digit d ->
  (10 ^ N.of_nat (Decimal.nb_digits d - 1) <= Pos.of_uint d)%N.
Proof.
  intros Hlead. rewrite DecimalPos.Unsigned.of_uint_alt.
  destruct d as [| d | d | d | d | d | d | d | d | d | d]; try contradiction;
    unfold Decimal.rev; simpl Decimal.revapp;
    rewrite DecimalPos.Unsigned.of_lu_revapp, usize_nb_digits;
    simpl Decimal.nb_digits; simpl DecimalPos.Unsigned.of_lu;
    replace (S (Decimal.nb_digits d) - 1)%nat with (Decimal.nb_digits d)
      by lia;
    nia.
Qed.

Lemma to_uint_digits (p : positive) (n : nat) :
  (N.pos p < 10 ^ N.of_nat n)%N ->
  (Decimal.nb_digits (Pos.to_uint p) <= n)%nat.
Proof.
  intros Hlt.
  pose proof (leading_digit_value _ (to_uint_leading p)) as Hle.
  rewrite DecimalPos.Unsigned.of_to in Hle.
  assert (Hpow : (10 ^ N.of_nat (Decimal.nb_digits (Pos.to_uint p) - 1)
                  < 10 ^ N.of_nat n)%N) by lia.
  apply N.pow_lt_mono_r_iff in Hpow; lia.
Qed.

(** [%d] of an [int] takes at most 11 characters. *)
Lemma sprintf_d_length (v : Z) : (String.length (sprintf_d v) <= 11)%nat.
Proof.
  unfold sprintf_d.
  assert (Hrange : - 2 ^ 31 <= int32 v < 2 ^ 31).
  { unfold int32. pose proof (Z.mod_pos_bound (v + 2 ^ 31) (2 ^ 32)). lia. }
  destruct (int32 v) as [| p | p]; simpl.
  - lia.
  - rewrite string_of_uint_nonnil_length
      by apply DecimalPos.Unsigned.to_uint_nonnil.
    pose proof (to_uint_digits p 10). lia.
  - rewrite string_of_uint_nonnil_length
      by apply DecimalPos.Unsigned.to_uint_nonnil.
    pose proof (to_uint_digits p 10). lia.
Qed.

Lemma sprintf_x_level_length (level : Z) :
  0 <= level <= 255 -> (String.length (sprintf_x level) <= 2)%nat.
Proof.
  intros Hl. rewrite sprintf_x_level by assumption.
  destruct (level <? 16); simpl; lia.
Qed.

(** X9.  What the two [sprintf] calls produce fits their buffers: the line
    of [write_int] is at most 12 characters for every [int], 13 bytes with
    its terminating zero in a buffer of 20; the pattern of
    [set_light_locked] is at most 34 characters, and the line [write_str]
    builds from it at most 35, 36 bytes with the terminating zero. *)
Theorem formatted_lines_fit (value : Z) (st : light_state_t) :
  (String.length (sprintf_d value +:+ nl) + 1 <= 13)%nat
  /\ (String.length (blink_pattern st) + 1 <= 35)%nat
  /\ (String.length (blink_pattern st +:+ nl) + 1 <= 36)%nat.
Proof.
  pose proof (sprintf_d_length value) as Hvalue.
  pose proof (sprintf_d_length (fst (flash_times st))) as Hon.
  pose proof (sprintf_d_length (snd (flash_times st))) as Hoff.
  pose proof (sprintf_x_level_length _ (brightness_level_range st)) as Hlevel.
  assert (Hpattern : (String.length (blink_pattern st) <= 34)%nat).
  { rewrite blink_pattern_unfold, !length_append. simpl. lia. }
  rewrite !length_append. simpl. lia.
Qed.

(** ** Clearing the attention request *)

(** X10.  [set_light_attention] with an unlit request writes level 0, the
    LED off, with the durations of that request, whatever request was held
    or shown before: the module keeps no notification request, so a
    notification written or masked earlier is not written again. *)
Theorem attention_off_switches_led_off (k : kernel) (dev : Z)
  (a : light_state_t) (s : state) :
  g_lock s = false ->
  Z.land (color a) 0x00FFFFFF = 0 ->
  blink_pattern a =
    "00000 " +:+ sprintf_d (fst (flash_times a)) +:+ " "
    +:+ sprintf_d (snd (flash_times a)) +:+ " 1 1"
  /\ (forall fd : N,
        k_open k RGB_CONTROL_FILE = Done fd ->
        exists r s',
          set_light_attention k dev a s = Some (r, s')
          /\ trace s' =
               trace s ++ written RGB_CONTROL_FILE (Z.of_N fd)
                            (blink_pattern a +:+ nl)
                            (sys_int (k_write k (Z.of_N fd)
                                        (blink_pattern a +:+ nl))))
  /\ (forall (k0 : kernel) (dev0 : Z) (n : light_state_t) (r0 : Z)
        (s0 : state) (fd : N),
        set_light_notifications k0 dev0 n s = Some (r0, s0) ->
        k_open k RGB_CONTROL_FILE = Done fd ->
        exists r s',
          set_light_attention k dev a s0 = Some (r, s')
          /\ trace s' =
               trace s0 ++ written RGB_CONTROL_FILE (Z.of_N fd)
                             (blink_pattern a +:+ nl)
                             (sys_int (k_write k (Z.of_N fd)
                                         (blink_pattern a +:+ nl)))).
Proof.
  intros Hfree Hunlit.
  assert (Hwrite : forall s1 fd,
             g_lock s1 = false ->
             k_open k RGB_CONTROL_FILE = Done fd ->
             exists r s',
               set_light_attention k dev a s1 = Some (r, s')
               /\ trace s' =
                    trace s1 ++ written RGB_CONTROL_FILE (Z.of_N fd)
                                  (blink_pattern a +:+ nl)
                                  (sys_int (k_write k (Z.of_N fd)
                                              (blink_pattern a +:+ nl)))).
  { intros s1 fd Hfree1 Hopen.
    rewrite set_light_attention_run by assumption.
    destruct (set_light_locked_opened k a
                (set_g_attention a (set_g_lock true s1)) fd Hopen)
      as (r & s' & Hrun & _ & Htrace).
    rewrite Hrun. simpl. exists r, (set_g_lock false s').
    split; [reflexivity |]. exact Htrace. }
  split; [| split].
  - rewrite blink_pattern_unfold, brightness_level_cases.
    apply unlit_iff in Hunlit. rewrite Hunlit. reflexivity.
  - intros fd Hopen. now apply Hwrite.
  - intros k0 dev0 n r0 s0 fd Hshown Hopen.
    destruct (set_light_notifications_post k0 dev0 n s Hfree)
      as (r1 & s1 & Hrun & Hfree1 & _).
    rewrite Hrun in Hshown. injection Hshown as <- <-.
    now apply Hwrite.
Qed.

(** ** More on the factory *)

Lemma open_lights_device (module : Z) (name : string) (dev : Z)
  (s s' : state) :
  open_lights module name s = Some ((0, Some dev), s') ->
  exists (p : positive) (fn : set_light_fn),
    dev = Z.pos p
    /\ select_set_light name = Some fn
    /\ heap s !! p = None
    /\ s' =
         set_heap (<[p := bound_device module fn]> (heap s))
           (if g_init s then s else set_g_init true (set_g_lock false s)).
Proof.
  intros Hopen. unfold open_lights in Hopen.
  destruct (select_set_light name) as [fn |] eqn:Hsel.
  - unfold pthread_once_g_init, init_globals, malloc_memset, store in Hopen.
    unfold_M.
    assert (Hfresh : heap s !! fresh (dom (heap s)) = None)
      by apply not_elem_of_dom, is_fresh.
    exists (fresh (dom (heap s))), fn.
    destruct (g_init s) eqn:Hinit; simpl in Hopen;
      rewrite !alter_insert_eq in Hopen; injection Hopen as <- <-;
      auto.
  - injection Hopen as Hret _. lia.
Qed.

(** X11.  Two handles opened one after the other are distinct and not
    null, each is bound to the function of its own name, and either can be
    closed without the other: closing one frees its device and leaves the
    device of the other in place. *)
Theorem handles_are_independent (m1 m2 : Z) (n1 n2 : string) (d1 d2 : Z)
  (s s1 s2 : state) :
  open_lights m1 n1 s = Some ((0, Some d1), s1) ->
  open_lights m2 n2 s1 = Some ((0, Some d2), s2) ->
  d1 <> 0 /\ d2 <> 0 /\ d1 <> d2
  /\ exists (p1 p2 : positive) (fn1 fn2 : set_light_fn),
       d1 = Z.pos p1 /\ d2 = Z.pos p2
       /\ select_set_light n1 = Some fn1
       /\ select_set_light n2 = Some fn2
       /\ heap s2 !! p1 = Some (bound_device m1 fn1)
       /\ heap s2 !! p2 = Some (bound_device m2 fn2)
       /\ (exists s3,
              close_lights d1 s2 = Some (0, s3)
              /\ heap s3 !! p1 = None
              /\ heap s3 !! p2 = Some (bound_device m2 fn2))
       /\ (exists s3,
              close_lights d2 s2 = Some (0, s3)
              /\ heap s3 !! p2 = None
              /\ heap s3 !! p1 = Some (bound_device m1 fn1)).
Proof.
  intros Hopen1 Hopen2.
  destruct (open_lights_device m1 n1 d1 s s1 Hopen1)
    as (p1 & fn1 & -> & Hsel1 & Hfree1 & Hs1).
  destruct (open_lights_device m2 n2 d2 s1 s2 Hopen2)
    as (p2 & fn2 & -> & Hsel2 & Hfree2 & Hs2).
  assert (Hheap1 : heap s1 = <[p1 := bound_device m1 fn1]> (heap s))
    by (rewrite Hs1; reflexivity).
  assert (Hheap2 : heap s2 = <[p2 := bound_device m2 fn2]> (heap s1))
    by (rewrite Hs2; reflexivity).
  assert (Hne : p1 <> p2).
  { intros ->. rewrite Hheap1 in Hfree2.
    now rewrite lookup_insert_eq in Hfree2. }
  assert (Hat1 : heap s2 !! p1 = Some (bound_device m1 fn1)).
  { rewrite Hheap2, Hheap1, lookup_insert_ne by congruence.
    apply lookup_insert_eq. }
  assert (Hat2 : heap s2 !! p2 = Some (bound_device m2 fn2)).
  { rewrite Hheap2. apply lookup_insert_eq. }
  split; [lia |]. split; [lia |]. split; [congruence |].
  exists p1, p2, fn1, fn2.
  split; [reflexivity |]. split; [reflexivity |].
  split; [exact Hsel1 |]. split; [exact Hsel2 |].
  split; [exact Hat1 |]. split; [exact Hat2 |]. split.
  - exists (set_heap (delete p1 (heap s2)) s2).
    split; [reflexivity |].
    change (heap (set_heap (delete p1 (heap s2)) s2))
      with (delete p1 (heap s2)).
    split; [apply lookup_delete_eq |].
    now rewrite lookup_delete_ne by congruence.
  - exists (set_heap (delete p2 (heap s2)) s2).
    split; [reflexivity |].
    change (heap (set_heap (delete p2 (heap s2)) s2))
      with (delete p2 (heap s2)).
    split; [apply lookup_delete_eq |].
    now rewrite lookup_delete_ne by congruence.
Qed.

(** X12.  The one-time initialisation runs at the first successful
    [open_lights] only: that open sets the once flag and initialises the
    mutex, and every later one changes nothing but the heap; in particular
    it leaves the mutex, held or free, and [g_attention] as they are. *)
Theorem open_lights_initialises_once (module : Z) (name : string) (dev : Z)
  (s s' : state) :
  open_lights module name s = Some ((0, Some dev), s') ->
  g_init s' = true
  /\ g_attention s' = g_attention s
  /\ trace s' = trace s
  /\ errno s' = errno s
  /\ (g_init s = true -> s' = set_heap (heap s') s)
  /\ (g_init s = false ->
      s' = set_heap (heap s') (set_g_init true (set_g_lock false s))).
Proof.
  intros Hopen.
  destruct (open_lights_device module name dev s s' Hopen)
    as (p & fn & -> & Hsel & Hfree & ->).
  destruct (g_init s) eqn:Hinit; simpl; rewrite ?Hinit;
    repeat split; intros; try discriminate; reflexivity.
Qed.

(** ** Sequences of calls *)

Lemma writer_result_nonpos (k : kernel) (path buffer msg : string)
  (warned : Z) (r : Z) (s' : state) :
  writer_result k path buffer warned msg (Some (r, s')) -> r <= 0.
Proof.
  intros (r0 & s0 & Heq & Hcases). injection Heq as <- <-.
  destruct (k_open k path); [destruct (k_write k _ _) |]; lia.
Qed.

Lemma write_str_step (k : kernel) (path value : string) (s : state) :
  exists r s',
    write_str k path value s = Some (r, s')
    /\ r <= 0 /\ io_frame s s'
    /\ trace s' =
         trace s ++ writer_events k path (value +:+ nl)
                      ("write_str failed to open " +:+ path +:+ nl)
                      (write_str_already_warned s =? 0)
    /\ write_int_already_warned s' = write_int_already_warned s
    /\ write_str_already_warned s'
       = warned_after k path (write_str_already_warned s).
Proof.
  destruct (write_str_events k path value s)
    as (r & s' & Hrun & Htrace & Hint & Hstr & _).
  destruct (write_str_run k path value s) as (r1 & s1 & Hrun1 & Hframe).
  rewrite Hrun in Hrun1. injection Hrun1 as <- <-.
  pose proof (write_str_result k path value s) as Hresult.
  rewrite Hrun in Hresult. apply writer_result_nonpos in Hresult.
  exists r, s'. unfold warned_after. auto 10.
Qed.

Lemma write_int_step (k : kernel) (path : string) (value : Z) (s : state) :
  exists r s',
    write_int k path value s = Some (r, s')
    /\ r <= 0 /\ io_frame s s'
    /\ trace s' =
         trace s ++ writer_events k path (sprintf_d value +:+ nl)
                      ("write_int failed to open " +:+ path +:+ nl)
                      (write_int_already_warned s =? 0)
    /\ write_str_already_warned s' = write_str_already_warned s
    /\ write_int_already_warned s'
       = warned_after k path (write_int_already_warned s).
Proof.
  destruct (write_int_events k path value s)
    as (r & s' & Hrun & Htrace & Hstr & Hint & _).
  destruct (write_int_run k path value s) as (r1 & s1 & Hrun1 & Hframe).
  rewrite Hrun in Hrun1. injection Hrun1 as <- <-.
  pose proof (write_int_result k path value s) as Hresult.
  rewrite Hrun in Hresult. apply writer_result_nonpos in Hresult.
  exists r, s'. unfold warned_after. auto 10.
Qed.

(** One call, entered with the mutex free. *)
Lemma call_step (c : call) (s : state) :
  g_lock s = false ->
  exists r s',
    call_set_light (call_fn c) (call_kernel c) 0 (call_request c) s
    = Some (r, s')
    /\ r <= 0 /\ g_lock s' = false /\ heap s' = heap s
    /\ g_init s' = g_init s
    /\ view_of s' = view_step (view_of s) c
    /\ trace s' = trace s ++ call_events (view_of s) c.
Proof.
  intros Hfree. destruct c as [fn k st].
  unfold call_events, view_step, view_of, resolved. simpl.
  destruct fn; simpl.
  - rewrite set_light_backlight_run by assumption.
    destruct (write_int_step k LCD_FILE (rgb_to_brightness st)
                (set_g_lock true s))
      as (r & s1 & -> & Hr & (Hatt & _ & Hinit & Hheap) & Htrace & Hstr
          & Hint).
    exists r, (set_g_lock false s1). simpl in *.
    rewrite Hatt, Hstr, Hint. auto 10.
  - rewrite set_light_notifications_run by assumption.
    unfold set_light_locked.
    destruct (write_str_step k RGB_CONTROL_FILE
                (blink_pattern
                   (if truthy (is_lit (g_attention s)) then g_attention s
                    else st))
                (set_g_lock true s))
      as (r & s1 & -> & Hr & (Hatt & _ & Hinit & Hheap) & Htrace & Hint
          & Hstr).
    exists r, (set_g_lock false s1). simpl in *.
    rewrite Hatt, Hstr, Hint. auto 10.
  - rewrite set_light_attention_run by assumption.
    unfold set_light_locked.
    destruct (write_str_step k RGB_CONTROL_FILE (blink_pattern st)
                (set_g_attention st (set_g_lock true s)))
      as (r & s1 & -> & Hr & (Hatt & _ & Hinit & Hheap) & Htrace & Hint
          & Hstr).
    exists r, (set_g_lock false s1). simpl in *.
    rewrite Hatt, Hstr, Hint. auto 10.
Qed.

Lemma run_calls_spec (cs : list call) (s : state) :
  g_lock s = false ->
  exists rs s',
    run_calls cs s = Some (rs, s')
    /\ length rs = length cs
    /\ Forall (fun r => r <= 0) rs
    /\ g_lock s' = false /\ heap s' = heap s /\ g_init s' = g_init s
    /\ view_of s' = view_after (view_of s) cs
    /\ trace s' = trace s ++ expected_trace (view_of s) cs.
Proof.
  revert s. induction cs as [| c cs IH]; intros s Hfree.
  - exists [], s. simpl. rewrite app_nil_r. auto 10.
  - destruct (call_step c s Hfree)
      as (r & s1 & Hrun & Hr & Hfree1 & Hheap & Hinit & Hview & Htrace).
    destruct (IH s1 Hfree1)
      as (rs & s2 & Hruns & Hlen & Hrs & Hfree2 & Hheap2 & Hinit2 & Hview2
          & Htrace2).
    exists (r :: rs), s2. simpl. unfold_M. rewrite Hrun, Hruns.
    rewrite Hheap2, Hinit2, Hview2, Htrace2, Htrace, Hview, <- app_assoc.
    simpl. auto 10.
Qed.

(** X13.  Any sequence of calls, started with the mutex free, runs to the
    end; every result is 0 or negative; the mutex is free again and the heap
    and the once flag are untouched; and the trace grows by exactly the
    events of a module that remembers nothing but the last attention request
    and the two warning flags. *)
Theorem calls_follow_reference (cs : list call) (s : state) :
  g_lock s = false ->
  exists rs s',
    run_calls cs s = Some (rs, s')
    /\ length rs = length cs
    /\ Forall (fun r => r <= 0) rs
    /\ g_lock s' = false /\ heap s' = heap s /\ g_init s' = g_init s
    /\ view_of s' = view_after (view_of s) cs
    /\ trace s' = trace s ++ expected_trace (view_of s) cs.
Proof. apply run_calls_spec. Qed.

Lemma filter_warning_app (a b : list event) :
  List.filter is_warning (a ++ b)
  = List.filter is_warning a ++ List.filter is_warning b.
Proof.
  induction a as [| e a IH]; simpl; [reflexivity |].
  destruct (is_warning e); simpl; now rewrite IH.
Qed.

Lemma writer_events_warnings (k : kernel) (path buffer msg : string)
  (warned : Z) :
  Nat.add
    (length (List.filter is_warning
               (writer_events k path buffer msg (warned =? 0))))
    (if warned_after k path warned =? 0 then 1%nat else 0%nat)
  = if warned =? 0 then 1%nat else 0%nat.
Proof.
  unfold writer_events, warned_after, written.
  destruct (k_open k path); simpl.
  - now destruct (warned =? 0).
  - destruct (Z.eqb_spec warned 0) as [-> | Hne]; simpl; [reflexivity |].
    apply Z.eqb_neq in Hne. now rewrite Hne.
Qed.

Lemma expected_trace_warnings (cs : list call) (v : view) :
  (length (List.filter is_warning (expected_trace v cs))
   + pending_warnings (view_after v cs)
   = pending_warnings v)%nat.
Proof.
  revert v. induction cs as [| c cs IH]; intros v; simpl; [reflexivity |].
  rewrite filter_warning_app, length_app, <- Nat.add_assoc, IH.
  unfold call_events, view_step, pending_warnings.
  destruct c as [fn k st]. simpl. destruct fn; simpl.
  - pose proof (writer_events_warnings k LCD_FILE
                  (sprintf_d (rgb_to_brightness st) +:+ nl)
                  ("write_int failed to open " +:+ LCD_FILE +:+ nl)
                  (v_warned_int v)).
    lia.
  - pose proof (writer_events_warnings k RGB_CONTROL_FILE
                  (blink_pattern (resolved (v_attention v) st) +:+ nl)
                  ("write_str failed to open " +:+ RGB_CONTROL_FILE +:+ nl)
                  (v_warned_str v)).
    lia.
  - pose proof (writer_events_warnings k RGB_CONTROL_FILE
                  (blink_pattern st +:+ nl)
                  ("write_str failed to open " +:+ RGB_CONTROL_FILE +:+ nl)
                  (v_warned_str v)).
    lia.
Qed.

(** X14.  Over any sequence of calls the module logs at most two warnings,
    one per writer whose flag was still 0 at the start: the warnings logged
    and the flags still at 0 at the end add up to the flags at 0 at the
    start. *)
Theorem at_most_one_warning_per_writer (cs : list call) (s : state) :
  g_lock s = false ->
  exists rs s' evs,
    run_calls cs s = Some (rs, s')
    /\ trace s' = trace s ++ evs
    /\ (length (List.filter is_warning evs)
        + pending_warnings (view_of s')
        = pending_warnings (view_of s))%nat
    /\ (length (List.filter is_warning evs) <= 2)%nat.
Proof.
  intros Hfree.
  destruct (run_calls_spec cs s Hfree)
    as (rs & s' & Hrun & _ & _ & _ & _ & _ & Hview & Htrace).
  exists rs, s', (expected_trace (view_of s) cs).
  pose proof (expected_trace_warnings cs (view_of s)) as Hcount.
  rewrite Hview. split; [exact Hrun |]. split; [exact Htrace |].
  split; [exact Hcount |].
  unfold pending_warnings in Hcount at 2.
  destruct (v_warned_int (view_of s) =? 0),
    (v_warned_str (view_of s) =? 0); lia.
Qed.

(** While a lit request is held in [g_attention], a notification call does
    what it would do with that request as its own. *)
Lemma masked_notification (k : kernel) (dev : Z) (st : light_state_t)
  (s : state) :
  truthy (is_lit (g_attention s)) = true ->
  set_light_notifications k dev st s
  = set_light_notifications k dev (g_attention s) s.
Proof.
  intros Hlit.
  unfold set_light_notifications, handle_led_prioritized_locked,
    pthread_mutex_lock.
  unfold_M. destruct (g_lock s); [reflexivity |]. simpl.
  now rewrite Hlit.
Qed.

(** X15.  While the request held in [g_attention] is lit, notification
    calls are masked for as long as no attention call replaces it: any
    sequence of notification calls has the results and the effects, trace
    included, of the same calls each carrying the attention request, and
    leaves that request in place. *)
Theorem attention_masks_until_replaced (cs : list call) (s : state) :
  g_lock s = false ->
  truthy (is_lit (g_attention s)) = true ->
  Forall (fun c => call_fn c = fn_set_light_notifications) cs ->
  run_calls cs s = run_calls (map (with_request (g_attention s)) cs) s
  /\ exists rs s',
       run_calls cs s = Some (rs, s')
       /\ g_attention s' = g_attention s.
Proof.
  revert s. induction cs as [| c cs IH]; intros s Hfree Hlit Hall.
  - split; [reflexivity |]. exists [], s. split; reflexivity.
  - inversion Hall as [| c0 cs0 Hc Hcs]; subst.
    destruct c as [fn k st]. simpl in Hc. subst fn.
    destruct (set_light_notifications_post k 0 st s Hfree)
      as (r & s1 & Hrun & Hfree1 & Hatt & _).
    assert (Hlit1 : truthy (is_lit (g_attention s1)) = true)
      by now rewrite Hatt.
    destruct (IH s1 Hfree1 Hlit1 Hcs) as (Heq & rs & s2 & Hruns & Hatt2).
    split.
    + simpl. unfold_M.
      rewrite <- (masked_notification k 0 st s Hlit), Hrun.
      rewrite Heq, Hatt. reflexivity.
    + exists (r :: rs), s2. simpl. unfold_M. rewrite Hrun, Hruns.
      split; [reflexivity | congruence].
Qed.

End Lights.

(** ** The statements on concrete runs

    The flash modes are taken as NONE = 0, TIMED = 1 and HARDWARE = 2, the
    device tag as 0x48574454 and [EINVAL] as 22. *)

Lemma notifications_resolve_witness :
  g_lock state_attention_red = false
  /\ drives_led_from 1 2 kernel_ok request_red state_attention_red
       (set_light_notifications 1 2 kernel_ok 0 request_dim_blink
          state_attention_red).
Proof.
  split; [reflexivity |].
  exact (proj1 (proj1 (notifications_resolve_against_attention 1 2 kernel_ok
                         0 request_dim_blink state_attention_red eq_refl)
                  eq_refl)).
Defined.

(** An unlit request has level 0, which [%x] prints as one digit: the line
    written is [00000 0 0 1 1], not the [000000 0 0 1 1] of the two-digit
    form; likewise level 5 gives [50000 ...] and not [050000 ...]. *)
Lemma unlit_pattern_has_one_digit :
  blink_pattern 1 2 request_off = "00000 0 0 1 1"
  /\ spec_toBlinkPattern (brightness_level request_off)
       (fst (flash_times 1 2 request_off))
       (snd (flash_times 1 2 request_off)) = "000000 0 0 1 1"
  /\ blink_pattern 1 2 request_off <>
     spec_toBlinkPattern (brightness_level request_off)
       (fst (flash_times 1 2 request_off))
       (snd (flash_times 1 2 request_off))
  /\ (exists s',
         set_light_locked 1 2 kernel_ok request_off initial_state
         = Some (0, s')
         /\ trace s' =
              [EvOpen RGB_CONTROL_FILE 3;
               EvWrite 3 ("00000 0 0 1 1" +:+ nl) 14; EvClose 3])
  /\ blink_pattern 1 2 request_dim_blink = "50000 500 2000 1 1"
  /\ spec_toBlinkPattern (brightness_level request_dim_blink) 500 2000
     = "050000 500 2000 1 1".
Proof.
  split; [reflexivity |]. split; [reflexivity |].
  split; [intros Heq; vm_compute in Heq; discriminate Heq |].
  split; [| split; reflexivity].
  eexists. split; [lazy; reflexivity | reflexivity].
Qed.

Lemma blink_pattern_written_witness :
  (0 <> 1 /\ 0 <> 2)
  /\ flash_times 1 2 request_dim_blink = (500, 2000)
  /\ flash_times 1 2 request_red = (0, 0).
Proof.
  assert (Hdistinct : 0 <> 1 /\ 0 <> 2) by (split; discriminate).
  split; [exact Hdistinct |]. split.
  - exact (proj1 (proj2 (proj2 (blink_pattern_written 0 1 2 Hdistinct
                                  kernel_ok request_dim_blink initial_state)))
             (or_introl eq_refl)).
  - exact (proj1 (proj2 (proj2 (proj2 (blink_pattern_written 0 1 2 Hdistinct
                                         kernel_ok request_red
                                         initial_state))))
             (or_introl eq_refl)).
Defined.

Lemma indicator_level_witness :
  (0 <> 1 /\ 0 <> 2)
  /\ brightness_level request_red = 255
  /\ blink_pattern 1 2 request_red = "ff0000 0 0 1 1".
Proof.
  assert (Hdistinct : 0 <> 1 /\ 0 <> 2) by (split; discriminate).
  split; [exact Hdistinct |].
  exact (proj2 (proj2 (proj2 (indicator_level 0 1 2 Hdistinct request_red)))
           eq_refl eq_refl).
Defined.

Lemma backlight_brightness_witness :
  g_lock initial_state = false
  /\ k_open kernel_ok LCD_FILE = Done 3
  /\ exists r s',
       set_light_backlight kernel_ok 0 request_red initial_state
       = Some (r, s')
       /\ trace s' =
            [EvOpen LCD_FILE 3; EvWrite 3 ("76" +:+ nl) 3; EvClose 3].
Proof.
  split; [reflexivity |]. split; [reflexivity |].
  exact (proj1 (proj2 (proj2 (proj2 (backlight_brightness kernel_ok 0
                                       request_red initial_state))))
           eq_refl 3%N eq_refl).
Defined.

Lemma unlit_iff_low24_zero_witness :
  color request_alpha_only = 0x80000000
  /\ truthy (is_lit request_alpha_only) = false
  /\ drives_led_from 1 2 kernel_ok request_red
       (set_g_attention request_alpha_only initial_state)
       (set_light_notifications 1 2 kernel_ok 0 request_red
          (set_g_attention request_alpha_only initial_state)).
Proof.
  split; [reflexivity |]. split.
  - exact (proj1 (proj2 (unlit_iff_low24_zero 1 2 request_alpha_only))
             eq_refl).
  - exact (proj2 (proj2 (unlit_iff_low24_zero 1 2 request_alpha_only))
             kernel_ok 0 request_red
             (set_g_attention request_alpha_only initial_state)
             eq_refl eq_refl eq_refl).
Defined.

Lemma open_lights_recognized_witness :
  opens 0x48574454 22 7 "attention" fn_set_light_attention initial_state
  /\ open_lights 0x48574454 22 7 "bogus" initial_state
     = Some ((-22, None), initial_state).
Proof.
  split.
  - exact (proj1 (proj2 (proj2 (open_lights_recognized 0x48574454 22 7
                                  "attention" initial_state)))
             eq_refl).
  - refine (proj1 (proj1 (proj2 (proj2 (proj2
              (open_lights_recognized 0x48574454 22 7 "bogus"
                 initial_state)))) _ _ _)); discriminate.
Defined.

Lemma sysfs_write_results_witness :
  g_lock initial_state = false
  /\ (exists s',
         write_str kernel_short RGB_CONTROL_FILE "ff0000 0 0 1 1"
           initial_state = Some (0, s'))
  /\ writer_result kernel_no_file LCD_FILE (sprintf_d 76 +:+ nl) 0
       ("write_int failed to open " +:+ LCD_FILE +:+ nl)
       (write_int kernel_no_file LCD_FILE 76 initial_state)
  /\ exists r s1,
       write_str kernel_write_error RGB_CONTROL_FILE
         (blink_pattern 1 2 request_red)
         (set_g_attention request_red (set_g_lock true initial_state))
       = Some (r, s1)
       /\ set_light_attention 1 2 kernel_write_error 0 request_red
            initial_state = Some (r, set_g_lock false s1).
Proof.
  split; [reflexivity |]. split; [| split].
  - refine (proj1 (proj2 (proj2 (proj2
              (sysfs_write_results 1 2 kernel_short initial_state))))
              RGB_CONTROL_FILE "ff0000 0 0 1 1" 3%N 1%N eq_refl eq_refl _).
    reflexivity.
  - exact (proj1 (sysfs_write_results 1 2 kernel_no_file initial_state)
             LCD_FILE 76).
  - exact (proj2 (proj2
             (proj2 (proj2 (proj2 (proj2
                (sysfs_write_results 1 2 kernel_write_error initial_state))))
                eq_refl 0 request_red))).
Defined.

(** [set_light_attention] with pure red on a module whose control file
    cannot be opened, and on one whose [write] fails: the call fails (with
    -2, with -5), and [g_attention], zero before the call, holds pure red
    after it. *)
Lemma failed_attention_write_stores_request :
  (exists s',
      set_light_attention 1 2 kernel_no_file 0 request_red initial_state
      = Some (-2, s')
      /\ g_attention initial_state = light_state_zero
      /\ g_attention s' = request_red
      /\ g_attention s' <> g_attention initial_state)
  /\ (exists s',
         set_light_attention 1 2 kernel_write_error 0 request_red
           initial_state = Some (-5, s')
         /\ g_attention s' = request_red
         /\ g_attention s' <> g_attention initial_state).
Proof.
  split; eexists; (split; [lazy; reflexivity |]).
  - split; [reflexivity |]. split; [reflexivity |]. simpl. discriminate.
  - split; [reflexivity |]. simpl. discriminate.
Qed.

Lemma attention_state_frame_witness :
  g_lock state_attention_red = false
  /\ (exists r s',
         set_light_notifications 1 2 kernel_no_file 0 request_dim_blink
           state_attention_red = Some (r, s')
         /\ g_attention s' = g_attention state_attention_red)
  /\ exists r s',
       set_light_attention 1 2 kernel_no_file 0 request_dim_blink
         state_attention_red = Some (r, s')
       /\ g_attention s' = request_dim_blink.
Proof.
  split; [reflexivity |]. split.
  - exact (proj1 (attention_state_frame 1 2 kernel_no_file 0
                    request_dim_blink state_attention_red eq_refl)).
  - exact (proj2 (proj2 (proj2 (attention_state_frame 1 2 kernel_no_file 0
                                  request_dim_blink state_attention_red
                                  eq_refl)))).
Defined.

Lemma attention_independent_of_prior_witness :
  agree_but_attention initial_state state_attention_red
  /\ g_lock initial_state = false
  /\ set_light_attention 1 2 kernel_ok 0 request_dim_blink initial_state
     = set_light_attention 1 2 kernel_ok 0 request_dim_blink
         state_attention_red.
Proof.
  split; [reflexivity |]. split; [reflexivity |].
  exact (proj1 (attention_independent_of_prior 1 2 kernel_ok 0
                  request_dim_blink initial_state state_attention_red
                  eq_refl eq_refl)).
Defined.

Lemma operations_lock_discipline_witness :
  g_lock (set_g_lock true initial_state) = true
  /\ set_light_attention 1 2 kernel_ok 0 request_red
       (set_g_lock true initial_state) = None
  /\ exists r s',
       set_light_attention 1 2 kernel_ok 0 request_red initial_state
       = Some (r, s')
       /\ g_lock s' = false.
Proof.
  split; [reflexivity |]. split.
  - exact (proj2 (proj2 (proj1 (operations_lock_discipline 1 2 kernel_ok 0
                                  request_red
                                  (set_g_lock true initial_state))
                           eq_refl))).
  - exact (proj2 (proj2 (proj2 (operations_lock_discipline 1 2 kernel_ok 0
                                  request_red initial_state)
                           eq_refl))).
Defined.

Lemma close_lights_frees_witness :
  open_lights 0x48574454 22 7 "backlight" initial_state
  = Some ((0, Some 1),
          set_heap
            {[1%positive :=
                {| common_tag := 0x48574454; common_version := 0;
                   common_module := 7;
                   common_close := Some fn_close_lights;
                   set_light := Some fn_set_light_backlight |}]}
            (set_g_init true initial_state))
  /\ exists s'',
       close_lights 1
         (set_heap
            {[1%positive :=
                {| common_tag := 0x48574454; common_version := 0;
                   common_module := 7;
                   common_close := Some fn_close_lights;
                   set_light := Some fn_set_light_backlight |}]}
            (set_g_init true initial_state))
       = Some (0, s'')
       /\ heap s'' = heap initial_state.
Proof.
  assert (Hopen :
    open_lights 0x48574454 22 7 "backlight" initial_state
    = Some ((0, Some 1),
            set_heap
              {[1%positive :=
                  {| common_tag := 0x48574454; common_version := 0;
                     common_module := 7;
                     common_close := Some fn_close_lights;
                     set_light := Some fn_set_light_backlight |}]}
              (set_g_init true initial_state)))
    by (vm_compute; reflexivity).
  split; [exact Hopen |].
  exact (proj2 (proj2 (close_lights_frees 0x48574454 22 7 "backlight"
                         initial_state))
           1 _ Hopen).
Defined.

Lemma writers_warn_once_witness :
  k_open kernel_no_file LCD_FILE = Failed 2
  /\ exists r s',
       write_str kernel_no_file LCD_FILE "x" state_attention_red
       = Some (r, s')
       /\ write_str_already_warned s' = 1
       /\ trace s' =
            [EvOpen LCD_FILE (-1);
             EvLog ("write_str failed to open " +:+ LCD_FILE +:+ nl)].
Proof.
  split; [reflexivity |].
  exact (proj1 (writers_warn_once kernel_no_file LCD_FILE "x" 2
                  state_attention_red)
           eq_refl eq_refl).
Defined.

Lemma attention_off_switches_led_off_witness :
  g_lock state_attention_red = false
  /\ Z.land (color request_off) 0x00FFFFFF = 0
  /\ blink_pattern 1 2 request_off = "00000 0 0 1 1"
  /\ exists r s',
       set_light_attention 1 2 kernel_ok 0 request_off state_attention_red
       = Some (r, s')
       /\ trace s' =
            [EvOpen RGB_CONTROL_FILE 3;
             EvWrite 3 ("00000 0 0 1 1" +:+ nl) 14; EvClose 3].
Proof.
  split; [reflexivity |]. split; [reflexivity |]. split.
  - exact (proj1 (attention_off_switches_led_off 1 2 kernel_ok 0 request_off
                    state_attention_red eq_refl eq_refl)).
  - exact (proj1 (proj2 (attention_off_switches_led_off 1 2 kernel_ok 0
                           request_off state_attention_red eq_refl eq_refl))
             3%N eq_refl).
Defined.

Lemma handles_are_independent_witness :
  open_lights 0x48574454 22 7 "attention" initial_state
  = Some ((0, Some 1), state_one_handle)
  /\ open_lights 0x48574454 22 7 "backlight" state_one_handle
     = Some ((0, Some 2), state_two_handles)
  /\ (1 : Z) <> 2.
Proof.
  assert (Hopen1 : open_lights 0x48574454 22 7 "attention" initial_state
                   = Some ((0, Some 1), state_one_handle))
    by (vm_compute; reflexivity).
  assert (Hopen2 : open_lights 0x48574454 22 7 "backlight" state_one_handle
                   = Some ((0, Some 2), state_two_handles))
    by (vm_compute; reflexivity).
  split; [exact Hopen1 |]. split; [exact Hopen2 |].
  exact (proj1 (proj2 (proj2 (handles_are_independent 0x48574454 22 7 7
                                "attention" "backlight" 1 2 initial_state
                                state_one_handle state_two_handles
                                Hopen1 Hopen2)))).
Defined.

Lemma open_lights_initialises_once_witness :
  open_lights 0x48574454 22 7 "backlight" state_one_handle
  = Some ((0, Some 2), state_two_handles)
  /\ g_init state_one_handle = true
  /\ state_two_handles
     = set_heap (heap state_two_handles) state_one_handle.
Proof.
  assert (Hopen : open_lights 0x48574454 22 7 "backlight" state_one_handle
                  = Some ((0, Some 2), state_two_handles))
    by (vm_compute; reflexivity).
  split; [exact Hopen |]. split; [reflexivity |].
  exact (proj1 (proj2 (proj2 (proj2 (proj2
           (open_lights_initialises_once 0x48574454 22 7 "backlight" 2
              state_one_handle state_two_handles Hopen)))))
           eq_refl).
Defined.

Lemma calls_follow_reference_witness :
  g_lock initial_state = false
  /\ exists rs s',
       run_calls 1 2 demo_calls initial_state = Some (rs, s')
       /\ length rs = length demo_calls
       /\ Forall (fun r => r <= 0) rs
       /\ g_lock s' = false /\ heap s' = heap initial_state
       /\ g_init s' = g_init initial_state
       /\ view_of s' = view_after (view_of initial_state) demo_calls
       /\ trace s' =
            trace initial_state
            ++ expected_trace 1 2 (view_of initial_state) demo_calls.
Proof.
  split; [reflexivity |].
  exact (calls_follow_reference 1 2 demo_calls initial_state eq_refl).
Defined.

Lemma at_most_one_warning_per_writer_witness :
  g_lock initial_state = false
  /\ exists rs s' evs,
       run_calls 1 2 demo_calls initial_state = Some (rs, s')
       /\ trace s' = trace initial_state ++ evs
       /\ (length (List.filter is_warning evs)
           + pending_warnings (view_of s')
           = pending_warnings (view_of initial_state))%nat
       /\ (length (List.filter is_warning evs) <= 2)%nat.
Proof.
  split; [reflexivity |].
  exact (at_most_one_warning_per_writer 1 2 demo_calls initial_state
           eq_refl).
Defined.

Lemma attention_masks_until_replaced_witness :
  g_lock state_attention_red = false
  /\ truthy (is_lit (g_attention state_attention_red)) = true
  /\ Forall (fun c => call_fn c = fn_set_light_notifications)
       demo_notifications
  /\ run_calls 1 2 demo_notifications state_attention_red
     = run_calls 1 2
         (map (with_request (g_attention state_attention_red))
            demo_notifications)
         state_attention_red.
Proof.
  assert (Hall : Forall (fun c => call_fn c = fn_set_light_notifications)
                   demo_notifications)
    by (repeat constructor).
  split; [reflexivity |]. split; [reflexivity |]. split; [exact Hall |].
  exact (proj1 (attention_masks_until_replaced 1 2 demo_notifications
                  state_attention_red eq_refl eq_refl Hall)).
Defined.

Lemma writers_close_what_they_open_witness :
  k_open kernel_write_error RGB_CONTROL_FILE = Done 3
  /\ writer_events kernel_write_error RGB_CONTROL_FILE "ff0000 0 0 1 1"
       "warning" true
     = [EvOpen RGB_CONTROL_FILE 3; EvWrite 3 "ff0000 0 0 1 1" (-1);
        EvClose 3].
Proof.
  split; [reflexivity |].
  exact (proj1 (proj2 (proj2 (writers_close_what_they_open
                                kernel_write_error RGB_CONTROL_FILE "" 0
                                initial_state)))
           "ff0000 0 0 1 1" "warning" true 3%N eq_refl).
Defined.

Lemma writers_warn_independently_witness :
  exists r s',
    write_int kernel_no_file LCD_FILE 76 initial_state = Some (r, s')
    /\ write_str_already_warned s' = write_str_already_warned initial_state
    /\ (write_int_already_warned initial_state <> 0 ->
        write_int_already_warned s' = write_int_already_warned initial_state)
    /\ (forall e : positive,
          k_open kernel_no_file LCD_FILE = Failed e ->
          write_int_already_warned s' <> 0
          /\ trace s' =
               trace initial_state ++
               EvOpen LCD_FILE (-1) ::
               (if write_int_already_warned initial_state =? 0
                then [EvLog ("write_int failed to open " +:+ LCD_FILE +:+ nl)]
                else [])).
Proof.
  exact (proj1 (writers_warn_independently kernel_no_file LCD_FILE "" 76
                  initial_state)).
Defined.

Lemma level_zero_iff_unlit_witness :
  Z.land (color request_dim_blink) 0x00FFFFFF <> 0
  /\ byte_of (color request_dim_blink) 3 <> 0
  /\ brightness_level request_dim_blink = 5.
Proof.
  assert (Hlit : Z.land (color request_dim_blink) 0x00FFFFFF <> 0)
    by (vm_compute; discriminate).
  assert (Htop : byte_of (color request_dim_blink) 3 <> 0)
    by (vm_compute; discriminate).
  split; [exact Hlit |]. split; [exact Htop |].
  exact (proj2 (proj2 (proj2 (level_zero_iff_unlit request_dim_blink)))
           Hlit Htop).
Defined.

Lemma backlight_brightness_shape_witness :
  byte_of (color request_grey) 1 = byte_of (color request_grey) 0
  /\ byte_of (color request_grey) 2 = byte_of (color request_grey) 0
  /\ rgb_to_brightness request_grey = 128.
Proof.
  split; [reflexivity |]. split; [reflexivity |].
  exact (proj1 (proj2 (backlight_brightness_shape request_grey request_grey))
           eq_refl eq_refl).
Defined.
